(** * haze-ls: the language server session of [server/src/server.ts]

    A shallow embedding of the server's handlers: capability negotiation
    ([connection.onInitialize]), the per-resource settings cache
    ([getDocumentSettings], [documentSettings]), pull diagnostics
    ([connection.languages.diagnostics.on], [validateTextDocument]) and the
    completion catalog ([connection.onCompletion],
    [connection.onCompletionResolve]).

    Module-level [let]/[const] bindings of the source become fields of the
    record [State]; every handler is a function on that record.  Requests the
    server sends to the client are appended to the field [sent]. *)

From Stdlib Require Import ZArith String List.
From stdpp Require Import base option gmap strings list fin_maps relations.

Local Open Scope string_scope.

(* ------------------------------------------------------------------------- *)
(** ** Promises *)

(** The eventual state of a JavaScript promise ([Thenable<T>]).  [Pending]
    stands for a promise that is never settled (for instance a request the
    client never answers). *)
Inductive Thenable (A : Type) : Type :=
  | Fulfilled (value : A)
  | Rejected (reason : string)
  | Pending.

Arguments Fulfilled {A} value.
Arguments Rejected {A} reason.
Arguments Pending {A}.

(** [await p; k]: the continuation runs on the value of a fulfilled promise;
    a rejection is rethrown, so the enclosing [async] function rejects with
    the same reason; on a promise that never settles the function never
    resumes. *)
Definition await {A B : Type} (p : Thenable A) (k : A -> Thenable B) : Thenable B :=
  match p with
  | Fulfilled v => k v
  | Rejected e => Rejected e
  | Pending => Pending
  end.

Notation "'let*' x ':=' 'await' p 'in' k" := (await p (fun x => k))
  (at level 10, x name, p at level 100, k at level 200).

(* ------------------------------------------------------------------------- *)
(** ** Protocol values *)

(** JSON values carried in [any]-typed protocol fields ([CompletionItem.data]).
    Numbers are restricted to integers: a [switch] over the members of a
    numeric enum treats every other number like an integer matching no
    [case]. *)
Inductive LSPAny : Type :=
  | AnyUndefined
  | AnyNull
  | AnyBoolean (b : bool)
  | AnyNumber (n : Z)
  | AnyString (s : string).

#[global] Instance LSPAny_eq_dec : EqDecision LSPAny.
Proof. solve_decision. Defined.

Module TextDocumentSyncKind.
Inductive t : Type := None_ | Full | Incremental.
End TextDocumentSyncKind.

(** [Variable], [Class] and [Module] of the protocol carry a trailing
    underscore here, as do [TextDocumentSyncKind.None], [DiagnosticSeverity.Hint]
    and [Range.end] below. *)
Module CompletionItemKind.
Inductive t : Type :=
  | Text | Method | Function | Constructor | Field | Variable_ | Class_
  | Interface | Module_ | Property | Unit | Value | Enum | Keyword | Snippet
  | Color | File | Reference | Folder | EnumMember | Constant | Struct
  | Event | Operator | TypeParameter.

#[global] Instance eq_dec : EqDecision t.
Proof. solve_decision. Defined.
End CompletionItemKind.

Module DocumentDiagnosticReportKind.
Inductive t : Type := Full | Unchanged.

#[global] Instance eq_dec : EqDecision t.
Proof. solve_decision. Defined.
End DocumentDiagnosticReportKind.

(* ------------------------------------------------------------------------- *)
(** ** The token catalog *)

(** [enum TokenKind]: a numeric enum, the members numbered from 0 in the
    order of declaration. *)
Module TokenKind.
Inductive t : Type :=
  | Function | Intrinsic | Geometry
  | Byte | String | Nvr
  | Return | While | For | If | Else
  | Asm | Print
  | Dotmacro | Dotdefine | Dotorg | Dothook | Dotunhook
  | R0 | R1 | R2 | R3
  | Move | Load | Copy | Save | Iadd | Isub | Band | Bior | Bxor | Call
  | Exit | Push | Pull | Brnz | Bool.

#[global] Instance eq_dec : EqDecision t.
Proof. solve_decision. Defined.

(** The members in the order of declaration. *)
Definition members : list t :=
  [ Function; Intrinsic; Geometry; Byte; String; Nvr; Return; While; For; If;
    Else; Asm; Print; Dotmacro; Dotdefine; Dotorg; Dothook; Dotunhook; R0;
    R1; R2; R3; Move; Load; Copy; Save; Iadd; Isub; Band; Bior; Bxor; Call;
    Exit; Push; Pull; Brnz; Bool ].

(** The number of a member. *)
Definition value (k : t) : Z :=
  match k with
  | Function => 0 | Intrinsic => 1 | Geometry => 2
  | Byte => 3 | String => 4 | Nvr => 5
  | Return => 6 | While => 7 | For => 8 | If => 9 | Else => 10
  | Asm => 11 | Print => 12
  | Dotmacro => 13 | Dotdefine => 14 | Dotorg => 15 | Dothook => 16
  | Dotunhook => 17
  | R0 => 18 | R1 => 19 | R2 => 20 | R3 => 21
  | Move => 22 | Load => 23 | Copy => 24 | Save => 25 | Iadd => 26
  | Isub => 27 | Band => 28 | Bior => 29 | Bxor => 30 | Call => 31
  | Exit => 32 | Push => 33 | Pull => 34 | Brnz => 35 | Bool => 36
  end%Z.

(** The member a number denotes, if any: the [case] of a [switch] over the
    enum that a number selects. *)
Definition of_number (n : Z) : option t :=
  List.find (fun k => Z.eqb (value k) n) members.
End TokenKind.

Module CompletionItem.
Record t : Type := mk {
  label : string;
  kind : option CompletionItemKind.t;
  data : LSPAny;
  detail : option string;
  documentation : option string
}.

#[global] Instance eq_dec : EqDecision t.
Proof. solve_decision. Defined.
End CompletionItem.

(** An item of the completion list: [{ label, kind: Keyword, data }]. *)
Definition keyword (label : string) (k : TokenKind.t) : CompletionItem.t :=
  {| CompletionItem.label := label;
     CompletionItem.kind := Some CompletionItemKind.Keyword;
     CompletionItem.data := AnyNumber (TokenKind.value k);
     CompletionItem.detail := None;
     CompletionItem.documentation := None |}.

(** [connection.onCompletion]: the position is ignored, the list is fixed. *)
Definition onCompletion : list CompletionItem.t :=
  [ keyword "function" TokenKind.Function;
    keyword "intrinsic" TokenKind.Intrinsic;
    keyword "geometry" TokenKind.Geometry;
    keyword "byte" TokenKind.Byte;
    keyword "string" TokenKind.String;
    keyword "nvr" TokenKind.Nvr;
    keyword "return" TokenKind.Return;
    keyword "while" TokenKind.While;
    keyword "for" TokenKind.For;
    keyword "if" TokenKind.If;
    keyword "else" TokenKind.Else;
    keyword "asm" TokenKind.Asm;
    keyword "print" TokenKind.Print;
    keyword ".macro" TokenKind.Dotmacro;
    keyword ".define" TokenKind.Dotdefine;
    keyword ".org" TokenKind.Dotorg;
    keyword ".hook" TokenKind.Dothook;
    keyword ".unhook" TokenKind.Dotunhook;
    keyword "r0" TokenKind.R0;
    keyword "r1" TokenKind.R1;
    keyword "r2" TokenKind.R2;
    keyword "r3" TokenKind.R3;
    keyword "move" TokenKind.Move;
    keyword "load" TokenKind.Load;
    keyword "save" TokenKind.Save;
    keyword "copy" TokenKind.Copy;
    keyword "iadd" TokenKind.Iadd;
    keyword "isub" TokenKind.Isub;
    keyword "band" TokenKind.Band;
    keyword "bior" TokenKind.Bior;
    keyword "bxor" TokenKind.Bxor;
    keyword "call" TokenKind.Call;
    keyword "exit" TokenKind.Exit;
    keyword "push" TokenKind.Push;
    keyword "pull" TokenKind.Pull;
    keyword "brnz" TokenKind.Brnz;
    keyword "bool" TokenKind.Bool ].

(** The double quote character, for string literals that contain it. *)
Definition dquote : string := String (Ascii.ascii_of_nat 34) EmptyString.

(** The body of each [case] of the [switch] in [connection.onCompletionResolve]:
    the [detail] and the [documentation] it assigns. *)
Definition resolveCase (k : TokenKind.t) : string * string :=
  match k with
  | TokenKind.Function =>
      ("function", "function {typename} {identifier} = ( {arguments} ) {statement}")
  | TokenKind.Intrinsic => ("intrinsic", "intrinsic {identifier} = {value};")
  | TokenKind.Geometry => ("geometry", "geometry {WIP};")
  | TokenKind.Byte => ("byte", "byte {identifier} = {expression};")
  | TokenKind.String =>
      ("string", "string {identifier} = " ++ dquote ++ "{text}" ++ dquote ++ ";")
  | TokenKind.Nvr => ("nvr", "function nvr {identifier} = ...")
  | TokenKind.Return => ("return", "return {expression};")
  | TokenKind.While => ("while", "while ({expression}) {statement}")
  | TokenKind.For =>
      ("for", "for ({statement}; {expression}; {expression}) {statement}")
  | TokenKind.If => ("if", "if ({expression}) {statement}")
  | TokenKind.Else => ("else", "if ... else {statement}")
  | TokenKind.Asm => ("asm", "asm { {commands} }")
  | TokenKind.Print => ("print", "print({expression});")
  | TokenKind.Dotmacro =>
      (".macro", ".macro {identifier} = ({arguments}): { {substitutions} }")
  | TokenKind.Dotdefine => (".define", ".define {identifier} = {constexpr}")
  | TokenKind.Dotorg => (".dotorg", ".dotorg {address}")
  | TokenKind.Dothook => (".hook", ".hook")
  | TokenKind.Dotunhook => (".unhook", ".unhook")
  | TokenKind.R0 => ("r0", "r0")
  | TokenKind.R1 => ("r1", "r1")
  | TokenKind.R2 => ("r2", "r2")
  | TokenKind.R3 => ("r3", "r3")
  | TokenKind.Move => ("move", "move {dst-reg}, {src-reg}")
  | TokenKind.Load => ("load", "load {dst-reg}, &{src-addr}")
  | TokenKind.Copy => ("copy", "copy {dst-reg}, #{src-imm}")
  | TokenKind.Save => ("save", "save &{dst-addr}, {src-reg}")
  | TokenKind.Iadd => ("iadd", "iadd {dst-reg}, {src-reg}")
  | TokenKind.Isub => ("isub", "isub {dst-reg}, {src-reg}")
  | TokenKind.Band => ("band", "band {dst-reg}, {src-reg}")
  | TokenKind.Bior => ("bior", "bior {dst-reg}, {src-reg}")
  | TokenKind.Bxor => ("bxor", "bxor {dst-reg}, {src-reg}")
  | TokenKind.Call => ("call", "call &{dst-addr}")
  | TokenKind.Exit => ("exit", "exit")
  | TokenKind.Push => ("push", "push {src-reg}")
  | TokenKind.Pull => ("pull", "pull {dst-reg}")
  | TokenKind.Brnz => ("brnz", "brnz &{dst-addr}, {src-reg}")
  | TokenKind.Bool => ("bool", "bool {src-reg}")
  end.

(** [connection.onCompletionResolve]: [switch (item.data)] compares with [===],
    so only a number equal to an enum member selects a [case]; there is no
    [default], and the item is returned as it came when no [case] matches. *)
Definition onCompletionResolve (item : CompletionItem.t) : CompletionItem.t :=
  match CompletionItem.data item with
  | AnyNumber n =>
      match TokenKind.of_number n with
      | Some k =>
          {| CompletionItem.label := CompletionItem.label item;
             CompletionItem.kind := CompletionItem.kind item;
             CompletionItem.data := CompletionItem.data item;
             CompletionItem.detail := Some (fst (resolveCase k));
             CompletionItem.documentation := Some (snd (resolveCase k)) |}
      | None => item
      end
  | _ => item
  end.

(* ------------------------------------------------------------------------- *)
(** ** Capabilities *)

(** An optional boolean member in a condition: [undefined] and [false] are
    falsy. *)
Definition truthy (b : option bool) : bool :=
  match b with
  | Some true => true
  | _ => false
  end.

Module WorkspaceClientCapabilities.
Record t : Type := mk {
  configuration : option bool;
  workspaceFolders : option bool
}.
End WorkspaceClientCapabilities.

Module PublishDiagnosticsClientCapabilities.
Record t : Type := mk { relatedInformation : option bool }.
End PublishDiagnosticsClientCapabilities.

Module TextDocumentClientCapabilities.
Record t : Type := mk {
  publishDiagnostics : option PublishDiagnosticsClientCapabilities.t
}.
End TextDocumentClientCapabilities.

Module ClientCapabilities.
Record t : Type := mk {
  workspace : option WorkspaceClientCapabilities.t;
  textDocument : option TextDocumentClientCapabilities.t
}.
End ClientCapabilities.

Module InitializeParams.
Record t : Type := mk { capabilities : ClientCapabilities.t }.
End InitializeParams.

Module CompletionOptions.
Record t : Type := mk { resolveProvider : option bool }.
End CompletionOptions.

Module DiagnosticOptions.
Record t : Type := mk {
  interFileDependencies : bool;
  workspaceDiagnostics : bool
}.
End DiagnosticOptions.

Module WorkspaceFoldersServerCapabilities.
Record t : Type := mk { supported : option bool }.
End WorkspaceFoldersServerCapabilities.

Module WorkspaceServerCapabilities.
Record t : Type := mk {
  workspaceFolders : option WorkspaceFoldersServerCapabilities.t
}.
End WorkspaceServerCapabilities.

Module ServerCapabilities.
Record t : Type := mk {
  textDocumentSync : option TextDocumentSyncKind.t;
  completionProvider : option CompletionOptions.t;
  diagnosticProvider : option DiagnosticOptions.t;
  workspace : option WorkspaceServerCapabilities.t
}.
End ServerCapabilities.

Module InitializeResult.
Record t : Type := mk { capabilities : ServerCapabilities.t }.
End InitializeResult.

(* ------------------------------------------------------------------------- *)
(** ** Documents, settings, diagnostics *)

Module TextDocument.
Record t : Type := mk {
  uri : string;
  languageId : string;
  version : Z;
  getText : string
}.
End TextDocument.

(** [interface HazeSettings]. *)
Record HazeSettings : Type := { maxNumberOfProblems : Z }.

Definition defaultSettings : HazeSettings := {| maxNumberOfProblems := 1000 |}.

Module Position.
Record t : Type := mk { line : nat; character : nat }.
End Position.

Module Range.
Record t : Type := mk { start : Position.t; end_ : Position.t }.
End Range.

Module DiagnosticSeverity.
Inductive t : Type := Error | Warning | Information | Hint_.
End DiagnosticSeverity.

Module DiagnosticRelatedInformation.
Record t : Type := mk {
  location : string * Range.t;
  message : string
}.
End DiagnosticRelatedInformation.

Module Diagnostic.
Record t : Type := mk {
  severity : option DiagnosticSeverity.t;
  range : Range.t;
  message : string;
  source : option string;
  relatedInformation : option (list DiagnosticRelatedInformation.t)
}.
End Diagnostic.

Module DocumentDiagnosticReport.
Record t : Type := mk {
  kind : DocumentDiagnosticReportKind.t;
  items : list Diagnostic.t
}.
End DocumentDiagnosticReport.

(** The parameter of [workspace/didChangeConfiguration].  [settings] is
    [None] for [null] or [undefined]; otherwise it holds the member
    [languageServerExample] of the settings object, [None] when the member is
    missing or falsy. *)
Module DidChangeConfigurationParams.
Record t : Type := mk { settings : option (option HazeSettings) }.
End DidChangeConfigurationParams.

(* ------------------------------------------------------------------------- *)
(** ** The session state *)

(** What the server sends to the client on its own initiative. *)
Inductive Outgoing : Type :=
  | ConfigurationRequest (scopeUri section : string)
  | RegisterCapability (method : string)
  | DiagnosticRefresh
  | ConsoleLog (message : string).

#[global] Instance Outgoing_eq_dec : EqDecision Outgoing.
Proof. solve_decision. Defined.

(** The module-level bindings of [server.ts], the documents of the text
    document manager [documents], and the requests sent so far. *)
Record State : Type := mkState {
  hasConfigurationCapability : bool;
  hasWorkspaceFolderCapability : bool;
  hasDiagnosticRelatedInformationCapability : bool;
  globalSettings : HazeSettings;
  documentSettings : gmap string (Thenable HazeSettings);
  documents : gmap string TextDocument.t;
  sent : list Outgoing
}.

(** The state when the module has been loaded. *)
Definition initialState : State :=
  {| hasConfigurationCapability := false;
     hasWorkspaceFolderCapability := false;
     hasDiagnosticRelatedInformationCapability := false;
     globalSettings := defaultSettings;
     documentSettings := ∅;
     documents := ∅;
     sent := [] |}.

Definition set_documentSettings (m : gmap string (Thenable HazeSettings))
    (st : State) : State :=
  {| hasConfigurationCapability := hasConfigurationCapability st;
     hasWorkspaceFolderCapability := hasWorkspaceFolderCapability st;
     hasDiagnosticRelatedInformationCapability :=
       hasDiagnosticRelatedInformationCapability st;
     globalSettings := globalSettings st;
     documentSettings := m;
     documents := documents st;
     sent := sent st |}.

Definition set_globalSettings (s : HazeSettings) (st : State) : State :=
  {| hasConfigurationCapability := hasConfigurationCapability st;
     hasWorkspaceFolderCapability := hasWorkspaceFolderCapability st;
     hasDiagnosticRelatedInformationCapability :=
       hasDiagnosticRelatedInformationCapability st;
     globalSettings := s;
     documentSettings := documentSettings st;
     documents := documents st;
     sent := sent st |}.

Definition set_documents (d : gmap string TextDocument.t) (st : State) : State :=
  {| hasConfigurationCapability := hasConfigurationCapability st;
     hasWorkspaceFolderCapability := hasWorkspaceFolderCapability st;
     hasDiagnosticRelatedInformationCapability :=
       hasDiagnosticRelatedInformationCapability st;
     globalSettings := globalSettings st;
     documentSettings := documentSettings st;
     documents := d;
     sent := sent st |}.

(** Sending a request: it is appended to the log. *)
Definition send (o : Outgoing) (st : State) : State :=
  {| hasConfigurationCapability := hasConfigurationCapability st;
     hasWorkspaceFolderCapability := hasWorkspaceFolderCapability st;
     hasDiagnosticRelatedInformationCapability :=
       hasDiagnosticRelatedInformationCapability st;
     globalSettings := globalSettings st;
     documentSettings := documentSettings st;
     documents := documents st;
     sent := sent st ++ [o] |}.

(** The result of a handler that may throw. *)
Inductive Completion (A : Type) : Type :=
  | Normal (value : A)
  | Throw (reason : string).

Arguments Normal {A} value.
Arguments Throw {A} reason.

(* ------------------------------------------------------------------------- *)
(** ** Capability negotiation *)

(** [connection.onInitialize]. *)
Definition onInitialize (params : InitializeParams.t) (st : State)
    : InitializeResult.t * State :=
  let capabilities := InitializeParams.capabilities params in
  let configurationCapability :=
    match ClientCapabilities.workspace capabilities with
    | Some workspace => truthy (WorkspaceClientCapabilities.configuration workspace)
    | None => false
    end in
  let workspaceFolderCapability :=
    match ClientCapabilities.workspace capabilities with
    | Some workspace => truthy (WorkspaceClientCapabilities.workspaceFolders workspace)
    | None => false
    end in
  let diagnosticRelatedInformationCapability :=
    match ClientCapabilities.textDocument capabilities with
    | Some textDocument =>
        match TextDocumentClientCapabilities.publishDiagnostics textDocument with
        | Some publishDiagnostics =>
            truthy (PublishDiagnosticsClientCapabilities.relatedInformation
                      publishDiagnostics)
        | None => false
        end
    | None => false
    end in
  let result :=
    {| ServerCapabilities.textDocumentSync := Some TextDocumentSyncKind.Incremental;
       ServerCapabilities.completionProvider :=
         Some {| CompletionOptions.resolveProvider := Some true |};
       ServerCapabilities.diagnosticProvider :=
         Some {| DiagnosticOptions.interFileDependencies := false;
                 DiagnosticOptions.workspaceDiagnostics := false |};
       ServerCapabilities.workspace := None |} in
  let result :=
    if workspaceFolderCapability then
      {| ServerCapabilities.textDocumentSync :=
           ServerCapabilities.textDocumentSync result;
         ServerCapabilities.completionProvider :=
           ServerCapabilities.completionProvider result;
         ServerCapabilities.diagnosticProvider :=
           ServerCapabilities.diagnosticProvider result;
         ServerCapabilities.workspace :=
           Some {| WorkspaceServerCapabilities.workspaceFolders :=
                     Some {| WorkspaceFoldersServerCapabilities.supported :=
                               Some true |} |} |}
    else result in
  ({| InitializeResult.capabilities := result |},
   {| hasConfigurationCapability := configurationCapability;
      hasWorkspaceFolderCapability := workspaceFolderCapability;
      hasDiagnosticRelatedInformationCapability :=
        diagnosticRelatedInformationCapability;
      globalSettings := globalSettings st;
      documentSettings := documentSettings st;
      documents := documents st;
      sent := sent st |}).

(** The client's descriptor declares [workspace.workspaceFolders]: the member
    is there and [true]. *)
Definition declaresWorkspaceFolders (params : InitializeParams.t) : Prop :=
  ∃ workspace,
    ClientCapabilities.workspace (InitializeParams.capabilities params) = Some workspace
    ∧ WorkspaceClientCapabilities.workspaceFolders workspace = Some true.

(** The result advertises workspace folder support:
    [capabilities.workspace = { workspaceFolders: { supported: true } }]. *)
Definition advertisesWorkspaceFolders (result : InitializeResult.t) : Prop :=
  ServerCapabilities.workspace (InitializeResult.capabilities result) =
    Some {| WorkspaceServerCapabilities.workspaceFolders :=
              Some {| WorkspaceFoldersServerCapabilities.supported := Some true |} |}.

(** [connection.onInitialized].  With the configuration capability the
    server registers for configuration changes; with the workspace folder
    capability, attaching a handler to
    [connection.workspace.onDidChangeWorkspaceFolders] registers for workspace
    folder changes, which is a second request to the client. *)
Definition onInitialized (st : State) : State :=
  let st :=
    if hasConfigurationCapability st
    then send (RegisterCapability "workspace/didChangeConfiguration") st
    else st in
  if hasWorkspaceFolderCapability st
  then send (RegisterCapability "workspace/didChangeWorkspaceFolders") st
  else st.

(** The handler that [connection.onInitialized] attaches to
    [connection.workspace.onDidChangeWorkspaceFolders]: it logs. *)
Definition onDidChangeWorkspaceFolders (st : State) : State :=
  send (ConsoleLog "Workspace folder change event received.") st.

(** [connection.onDidChangeConfiguration].  Without the configuration
    capability, reading [change.settings.languageServerExample] throws when
    [change.settings] is [null] or [undefined], before anything is assigned or
    sent. *)
Definition onDidChangeConfiguration (change : DidChangeConfigurationParams.t)
    (st : State) : Completion unit * State :=
  if hasConfigurationCapability st then
    (Normal tt, send DiagnosticRefresh (set_documentSettings ∅ st))
  else
    match DidChangeConfigurationParams.settings change with
    | Some languageServerExample =>
        (Normal tt,
         send DiagnosticRefresh
           (set_globalSettings
              (match languageServerExample with
               | Some s => s
               | None => defaultSettings
               end) st))
    | None => (Throw "TypeError", st)
    end.

(** [documents.onDidClose]. *)
Definition onDidClose (document : TextDocument.t) (st : State) : State :=
  set_documentSettings (delete (TextDocument.uri document) (documentSettings st)) st.

(** [connection.onDidChangeWatchedFiles]. *)
Definition onDidChangeWatchedFiles (st : State) : State :=
  send (ConsoleLog "We received a file change event") st.

Section Session.

(** [connection.workspace.getConfiguration]: the promise the client's answer
    settles, for a request with the given [scopeUri] and [section] sent after
    the requests of the log. *)
Variable getConfiguration :
  list Outgoing -> string -> string -> Thenable HazeSettings.

(** [getDocumentSettings].  A promise is an object and never falsy, so
    [!result] holds exactly when the map has no entry. *)
Definition getDocumentSettings (resource : string) (st : State)
    : Thenable HazeSettings * State :=
  if negb (hasConfigurationCapability st) then
    (Fulfilled (globalSettings st), st)
  else
    match documentSettings st !! resource with
    | Some result => (result, st)
    | None =>
        let result := getConfiguration (sent st) resource "haze-ls" in
        (result,
         set_documentSettings (<[resource := result]> (documentSettings st))
           (send (ConfigurationRequest resource "haze-ls") st))
    end.

(** [validateTextDocument]: the loop that pushed diagnostics is commented
    out, so [diagnostics] is returned as initialised. *)
Definition validateTextDocument (textDocument : TextDocument.t) (st : State)
    : Thenable (list Diagnostic.t) * State :=
  let '(pending, st) := getDocumentSettings (TextDocument.uri textDocument) st in
  (let* settings := await pending in
   let text := TextDocument.getText textDocument in
   let problems := 0%Z in
   let diagnostics : list Diagnostic.t := [] in
   Fulfilled diagnostics,
   st).

(** [connection.languages.diagnostics.on], on [params.textDocument.uri]. *)
Definition diagnostics_on (uri : string) (st : State)
    : Thenable DocumentDiagnosticReport.t * State :=
  match documents st !! uri with
  | Some document =>
      let '(pending, st) := validateTextDocument document st in
      (let* items := await pending in
       Fulfilled {| DocumentDiagnosticReport.kind :=
                      DocumentDiagnosticReportKind.Full;
                    DocumentDiagnosticReport.items := items |},
       st)
  | None =>
      (Fulfilled {| DocumentDiagnosticReport.kind :=
                      DocumentDiagnosticReportKind.Full;
                    DocumentDiagnosticReport.items := [] |},
       st)
  end.

(** [documents.onDidChangeContent]: the promise is dropped. *)
Definition onDidChangeContent (document : TextDocument.t) (st : State) : State :=
  snd (validateTextDocument document st).

(** One step of the session after the handshake: the connection runs one of
    the handlers, or the text document manager changes its documents. *)
Inductive step : State -> State -> Prop :=
  | step_initialized st :
      step st (onInitialized st)
  | step_didChangeConfiguration change st :
      step st (snd (onDidChangeConfiguration change st))
  | step_didClose document st :
      step st (onDidClose document st)
  | step_didChangeContent document st :
      step st (onDidChangeContent document st)
  | step_diagnostics uri st :
      step st (snd (diagnostics_on uri st))
  | step_didChangeWatchedFiles st :
      step st (onDidChangeWatchedFiles st)
  | step_documents d st :
      step st (set_documents d st)
  | step_didChangeWorkspaceFolders st :
      hasWorkspaceFolderCapability st = true ->
      step st (onDidChangeWorkspaceFolders st).

(** The states of a session: the handshake runs first and once. *)
Inductive reachable : State -> Prop :=
  | reachable_initialize params :
      reachable (snd (onInitialize params initialState))
  | reachable_step st st' :
      reachable st -> step st st' -> reachable st'.

(** A resource for which the session has asked the client before. *)
Definition queried (resource : string) (st : State) : Prop :=
  ∃ section, ConfigurationRequest resource section ∈ sent st.

(** The steps that do not invalidate the cached settings of [resource]:
    every step but a configuration change and the closing of [resource];
    a call of [getDocumentSettings] is one of them. *)
Inductive keeps (resource : string) : State -> State -> Prop :=
  | keeps_initialized st :
      keeps resource st (onInitialized st)
  | keeps_didClose document st :
      TextDocument.uri document ≠ resource ->
      keeps resource st (onDidClose document st)
  | keeps_didChangeContent document st :
      keeps resource st (onDidChangeContent document st)
  | keeps_diagnostics uri st :
      keeps resource st (snd (diagnostics_on uri st))
  | keeps_didChangeWatchedFiles st :
      keeps resource st (onDidChangeWatchedFiles st)
  | keeps_documents d st :
      keeps resource st (set_documents d st)
  | keeps_getDocumentSettings resource' st :
      keeps resource st (snd (getDocumentSettings resource' st))
  | keeps_didChangeWorkspaceFolders st :
      hasWorkspaceFolderCapability st = true ->
      keeps resource st (onDidChangeWorkspaceFolders st).

End Session.

(* ------------------------------------------------------------------------- *)
(** ** The text document manager *)

Module TextDocumentContentChangeEvent.
(** An incremental edit (range and replacement text) or a full
    replacement. *)
Inductive t : Type :=
  | Incremental (range : Range.t) (text : string)
  | Whole (text : string).
End TextDocumentContentChangeEvent.

Module DidChangeTextDocumentParams.
Record t : Type := mk {
  uri : string;
  version : Z;
  contentChanges : list TextDocumentContentChangeEvent.t
}.
End DidChangeTextDocumentParams.

Module TextDocuments.

Definition newline : Ascii.ascii := Ascii.ascii_of_nat 10.

(** Modelled from the spec: the offset of the start or the end of an edit's
    range in the stored text (class [TextDocument] of the package
    [vscode-languageserver-textdocument], not part of [server.ts]): the
    characters of the lines before [line], and at most the rest of that
    line. *)
Fixpoint offsetAt (line character : nat) (content : string) : nat :=
  match content with
  | EmptyString => 0
  | String a rest =>
      match line with
      | S line' =>
          S (if Ascii.eqb a newline then offsetAt line' character rest
             else offsetAt line character rest)
      | 0 =>
          match character with
          | S character' =>
              if Ascii.eqb a newline then 0 else S (offsetAt 0 character' rest)
          | 0 => 0
          end
      end
  end.

(** Modelled from the spec: one edit (a range with its replacement text, or
    a full replacement) applied to the stored text; the update of a
    [TextDocument] is not part of [server.ts]. *)
Definition applyEdit (content : string)
    (change : TextDocumentContentChangeEvent.t) : string :=
  match change with
  | TextDocumentContentChangeEvent.Whole text => text
  | TextDocumentContentChangeEvent.Incremental range text =>
      let s := offsetAt (Position.line (Range.start range))
                        (Position.character (Range.start range)) content in
      let e := offsetAt (Position.line (Range.end_ range))
                        (Position.character (Range.end_ range)) content in
      substring 0 s content ++ text ++ substring e (String.length content - e) content
  end.

(** Modelled from the spec: the document store, which is the class
    [TextDocuments] of the package [vscode-languageserver]; [server.ts] only
    constructs it ([documents]) and reads it ([documents.get]).  Open creates
    the document record. *)
Definition didOpen (document : TextDocument.t)
    (store : gmap string TextDocument.t) : gmap string TextDocument.t :=
  <[TextDocument.uri document := document]> store.

(** Modelled from the spec: the change transition of the document store
    (class [TextDocuments], not part of [server.ts]).  The edits are applied
    in the order received and the version becomes the client's; a change
    whose version is not greater than the stored one, or for a document that
    is not open, is ignored.  The result is the new store and the document
    that changed, if any. *)
Definition didChange (params : DidChangeTextDocumentParams.t)
    (store : gmap string TextDocument.t)
    : gmap string TextDocument.t * option TextDocument.t :=
  match store !! DidChangeTextDocumentParams.uri params with
  | Some document =>
      if (TextDocument.version document <? DidChangeTextDocumentParams.version params)%Z
      then
        let document' :=
          {| TextDocument.uri := TextDocument.uri document;
             TextDocument.languageId := TextDocument.languageId document;
             TextDocument.version := DidChangeTextDocumentParams.version params;
             TextDocument.getText :=
               fold_left applyEdit
                 (DidChangeTextDocumentParams.contentChanges params)
                 (TextDocument.getText document) |} in
        (<[DidChangeTextDocumentParams.uri params := document']> store,
         Some document')
      else (store, None)
  | None => (store, None)
  end.

(** Modelled from the spec: the close transition of the document store
    (class [TextDocuments], not part of [server.ts]): the document is
    removed. *)
Definition didClose (uri : string) (store : gmap string TextDocument.t)
    : gmap string TextDocument.t * option TextDocument.t :=
  (delete uri store, store !! uri).

End TextDocuments.

Section Notifications.

Variable getConfiguration :
  list Outgoing -> string -> string -> Thenable HazeSettings.

(** Modelled from the spec: the dispatch of [textDocument/didOpen] by
    [documents.listen(connection)] (class [TextDocuments], not part of
    [server.ts]): the document is stored and [onDidChangeContent] fires. *)
Definition didOpenTextDocument (document : TextDocument.t) (st : State) : State :=
  onDidChangeContent getConfiguration document
    (set_documents (TextDocuments.didOpen document (documents st)) st).

(** Modelled from the spec: the dispatch of [textDocument/didChange] (class
    [TextDocuments], not part of [server.ts]): [onDidChangeContent] fires for
    a change that was applied. *)
Definition didChangeTextDocument (params : DidChangeTextDocumentParams.t)
    (st : State) : State :=
  match TextDocuments.didChange params (documents st) with
  | (store, Some document) =>
      onDidChangeContent getConfiguration document (set_documents store st)
  | (store, None) => set_documents store st
  end.

(** Modelled from the spec: the dispatch of [textDocument/didClose] (class
    [TextDocuments], not part of [server.ts]): [onDidClose] fires for a
    document that was open. *)
Definition didCloseTextDocument (uri : string) (st : State) : State :=
  match TextDocuments.didClose uri (documents st) with
  | (store, Some document) => onDidClose document (set_documents store st)
  | (store, None) => set_documents store st
  end.

End Notifications.

(* ------------------------------------------------------------------------- *)
(** ** Sample clients and documents *)

(** The client answers every configuration request with settings. *)
Definition answers
    (client : list Outgoing -> string -> string -> Thenable HazeSettings) : Prop :=
  ∀ log scopeUri section, ∃ settings, client log scopeUri section = Fulfilled settings.

(** A client that answers every configuration request with the same
    settings. *)
Definition answeringClient (s : HazeSettings)
    : list Outgoing -> string -> string -> Thenable HazeSettings :=
  fun _ _ _ => Fulfilled s.

(** A client that answers every configuration request with an error. *)
Definition failingClient : list Outgoing -> string -> string -> Thenable HazeSettings :=
  fun _ _ _ => Rejected "Unhandled method workspace/configuration".

(** A client that never answers. *)
Definition silentClient : list Outgoing -> string -> string -> Thenable HazeSettings :=
  fun _ _ _ => Pending.

(** The capabilities of a client that supports everything asked for. *)
Definition fullCapabilities : InitializeParams.t :=
  {| InitializeParams.capabilities :=
       {| ClientCapabilities.workspace :=
            Some {| WorkspaceClientCapabilities.configuration := Some true;
                    WorkspaceClientCapabilities.workspaceFolders := Some true |};
          ClientCapabilities.textDocument :=
            Some {| TextDocumentClientCapabilities.publishDiagnostics :=
                      Some {| PublishDiagnosticsClientCapabilities.relatedInformation :=
                                Some true |} |} |} |}.

(** The capabilities of a client that declares nothing. *)
Definition noCapabilities : InitializeParams.t :=
  {| InitializeParams.capabilities :=
       {| ClientCapabilities.workspace := None;
          ClientCapabilities.textDocument := None |} |}.

Definition a_hz : TextDocument.t :=
  {| TextDocument.uri := "a.hz";
     TextDocument.languageId := "hz";
     TextDocument.version := 1;
     TextDocument.getText := "function main" |}.

Definition b_hz : TextDocument.t :=
  {| TextDocument.uri := "b.hz";
     TextDocument.languageId := "hz";
     TextDocument.version := 4;
     TextDocument.getText := "byte x = 1;" |}.

(** The session after the handshake with [fullCapabilities] and the opening of
    [a_hz]. *)
Definition openedSession
    (client : list Outgoing -> string -> string -> Thenable HazeSettings) : State :=
  didOpenTextDocument client a_hz (snd (onInitialize fullCapabilities initialState)).

(** The session after the handshake with [fullCapabilities]. *)
Definition negotiated : State := snd (onInitialize fullCapabilities initialState).

(** [openedSession] after the opening of [b_hz]. *)
Definition twoDocuments
    (client : list Outgoing -> string -> string -> Thenable HazeSettings) : State :=
  didOpenTextDocument client b_hz (openedSession client).

(** The session after the handshake with [noCapabilities] and the opening of
    [a_hz]. *)
Definition plainSession
    (client : list Outgoing -> string -> string -> Thenable HazeSettings) : State :=
  didOpenTextDocument client a_hz (snd (onInitialize noCapabilities initialState)).

(** [openedSession] after a configuration change: [a_hz] is open and the
    settings cache is empty. *)
Definition refreshedSession
    (client : list Outgoing -> string -> string -> Thenable HazeSettings) : State :=
  snd (onDidChangeConfiguration {| DidChangeConfigurationParams.settings := None |}
         (openedSession client)).

(** A change of [a_hz] that carries the version the document already has. *)
Definition staleChange : DidChangeTextDocumentParams.t :=
  {| DidChangeTextDocumentParams.uri := "a.hz";
     DidChangeTextDocumentParams.version := 1;
     DidChangeTextDocumentParams.contentChanges :=
       [TextDocumentContentChangeEvent.Whole "function other"] |}.

(** An item that carries the key of [while] and a detail of unknown origin. *)
Definition staleItem : CompletionItem.t :=
  {| CompletionItem.label := "loop";
     CompletionItem.kind := None;
     CompletionItem.data := AnyNumber 7;
     CompletionItem.detail := Some "outdated";
     CompletionItem.documentation := None |}.

(** [a_hz] after an edit: the same URI, a later version, another text. *)
Definition a_hz_edited : TextDocument.t :=
  {| TextDocument.uri := "a.hz";
     TextDocument.languageId := "hz";
     TextDocument.version := 2;
     TextDocument.getText := "function main = ()" |}.

(* ------------------------------------------------------------------------- *)
(** * Properties *)

(** ** The completion catalog *)

Lemma of_number_value (k : TokenKind.t) :
  TokenKind.of_number (TokenKind.value k) = Some k.
Proof. destruct k; reflexivity. Qed.

Lemma onCompletion_data (entry : CompletionItem.t) :
  entry ∈ onCompletion ->
  ∃ k, CompletionItem.data entry = AnyNumber (TokenKind.value k).
Proof.
  unfold onCompletion. rewrite !elem_of_cons, elem_of_nil.
  intros H. repeat (destruct H as [-> | H]; [eexists; reflexivity |]).
  destruct H.
Qed.

Lemma onCompletionResolve_key (item : CompletionItem.t) (k : TokenKind.t) :
  CompletionItem.data item = AnyNumber (TokenKind.value k) ->
  onCompletionResolve item =
    {| CompletionItem.label := CompletionItem.label item;
       CompletionItem.kind := CompletionItem.kind item;
       CompletionItem.data := CompletionItem.data item;
       CompletionItem.detail := Some (fst (resolveCase k));
       CompletionItem.documentation := Some (snd (resolveCase k)) |}.
Proof.
  intros Hdata. unfold onCompletionResolve.
  rewrite Hdata, of_number_value. reflexivity.
Qed.

(** C7: every entry of the completion list resolves: the item comes back with a
    detail and a documentation attached, and so does every item that carries
    the data key of an entry of the list; an item that comes back without a
    detail therefore carries a key that is not in the list. *)
Theorem resolve_listed_entry (i : nat) (entry : CompletionItem.t) :
  onCompletion !! i = Some entry ->
  (∃ detail documentation,
      onCompletionResolve entry =
        {| CompletionItem.label := CompletionItem.label entry;
           CompletionItem.kind := CompletionItem.kind entry;
           CompletionItem.data := CompletionItem.data entry;
           CompletionItem.detail := Some detail;
           CompletionItem.documentation := Some documentation |})
  ∧ (∀ item : CompletionItem.t,
        CompletionItem.data item = CompletionItem.data entry ->
        is_Some (CompletionItem.detail (onCompletionResolve item)))
  ∧ (∀ item : CompletionItem.t,
        CompletionItem.detail (onCompletionResolve item) = None ->
        CompletionItem.data item ≠ CompletionItem.data entry).
Proof.
  intros Hi.
  assert (Hin : entry ∈ onCompletion) by (eapply list_elem_of_lookup_2; eauto).
  destruct (onCompletion_data entry Hin) as [k Hk].
  assert (Hsome : ∀ item : CompletionItem.t,
             CompletionItem.data item = CompletionItem.data entry ->
             is_Some (CompletionItem.detail (onCompletionResolve item))).
  { intros item Hitem. rewrite (onCompletionResolve_key item k) by congruence.
    simpl. eauto. }
  split; [| split].
  - eexists _, _. apply onCompletionResolve_key, Hk.
  - exact Hsome.
  - intros item Hnone Heq. destruct (Hsome item Heq) as [d Hd]. congruence.
Qed.

(** C10: the entry labelled [.org] is in the list, and resolving it gives the
    detail [.dotorg] and the documentation [.dotorg {address}]; it is the only
    entry of the list whose resolved detail differs from its label. *)
Theorem resolve_dotorg :
  keyword ".org" TokenKind.Dotorg ∈ onCompletion
  ∧ onCompletionResolve (keyword ".org" TokenKind.Dotorg) =
      {| CompletionItem.label := ".org";
         CompletionItem.kind := Some CompletionItemKind.Keyword;
         CompletionItem.data := AnyNumber (TokenKind.value TokenKind.Dotorg);
         CompletionItem.detail := Some ".dotorg";
         CompletionItem.documentation := Some ".dotorg {address}" |}
  ∧ CompletionItem.detail (onCompletionResolve (keyword ".org" TokenKind.Dotorg))
      ≠ Some (CompletionItem.label (keyword ".org" TokenKind.Dotorg))
  ∧ Forall
      (fun entry =>
         entry ≠ keyword ".org" TokenKind.Dotorg ->
         CompletionItem.detail (onCompletionResolve entry) =
           Some (CompletionItem.label entry))
      onCompletion.
Proof.
  split; [| split; [| split]].
  - unfold onCompletion. rewrite !elem_of_cons. tauto.
  - reflexivity.
  - discriminate.
  - unfold onCompletion.
    repeat (apply Forall_cons; split;
            [first [ intros _; reflexivity | intros H; exfalso; apply H; reflexivity ] |]).
    apply Forall_nil. exact I.
Qed.

(* ------------------------------------------------------------------------- *)
(** ** Capability negotiation *)

(** C1: whatever the client's capability descriptor, the result of the
    initialize handler declares incremental text synchronisation, a completion
    provider that resolves on demand and a diagnostic provider without
    inter-file dependencies and without workspace diagnostics; it advertises
    workspace folder support exactly when the descriptor declares
    [workspace.workspaceFolders], and has no [workspace] member otherwise. *)
Theorem onInitialize_result (params : InitializeParams.t) (st : State) :
  let result := fst (onInitialize params st) in
  let capabilities := InitializeResult.capabilities result in
  ServerCapabilities.textDocumentSync capabilities =
    Some TextDocumentSyncKind.Incremental
  ∧ ServerCapabilities.completionProvider capabilities =
      Some {| CompletionOptions.resolveProvider := Some true |}
  ∧ ServerCapabilities.diagnosticProvider capabilities =
      Some {| DiagnosticOptions.interFileDependencies := false;
              DiagnosticOptions.workspaceDiagnostics := false |}
  ∧ (advertisesWorkspaceFolders result ↔ declaresWorkspaceFolders params)
  ∧ (¬ declaresWorkspaceFolders params ->
     ServerCapabilities.workspace capabilities = None).
Proof.
  destruct params as [[workspace textDocument]].
  unfold advertisesWorkspaceFolders, declaresWorkspaceFolders, onInitialize; simpl.
  destruct workspace as [[configuration [[|]|]]|]; simpl;
    (split; [reflexivity | split; [reflexivity | split; [reflexivity | split; [split |]]]]).
  all: try discriminate; try reflexivity.
  all: try (intros [w [Hw Hf]]; simplify_eq; simpl in *; discriminate).
  all: try (intros _; eexists; split; reflexivity).
  all: try (intros Hn; exfalso; apply Hn; eexists; split; reflexivity).
Qed.

(* ------------------------------------------------------------------------- *)
(** ** The settings cache *)

(** [onInitialized] only sends registrations. *)
Lemma onInitialized_fields (st : State) :
  hasConfigurationCapability (onInitialized st) = hasConfigurationCapability st
  ∧ hasWorkspaceFolderCapability (onInitialized st) = hasWorkspaceFolderCapability st
  ∧ hasDiagnosticRelatedInformationCapability (onInitialized st) =
      hasDiagnosticRelatedInformationCapability st
  ∧ globalSettings (onInitialized st) = globalSettings st
  ∧ documentSettings (onInitialized st) = documentSettings st
  ∧ documents (onInitialized st) = documents st
  ∧ ∃ suffix, sent (onInitialized st) = (sent st ++ suffix)%list
              ∧ ∀ o, o ∈ suffix -> ∃ method, o = RegisterCapability method.
Proof.
  assert (Hreg : ∀ (suffix : list Outgoing),
            Forall (fun o => ∃ method, o = RegisterCapability method) suffix ->
            ∀ o, o ∈ suffix -> ∃ method, o = RegisterCapability method).
  { intros suffix Hall o Ho. rewrite Forall_forall in Hall. apply Hall, Ho. }
  unfold onInitialized.
  destruct (hasConfigurationCapability st) eqn:Hc; simpl;
    destruct (hasWorkspaceFolderCapability st) eqn:Hw; simpl;
    rewrite ?Hc, ?Hw; repeat (split; [reflexivity |]).
  - exists [RegisterCapability "workspace/didChangeConfiguration";
            RegisterCapability "workspace/didChangeWorkspaceFolders"].
    split; [rewrite <- app_assoc; reflexivity |].
    apply Hreg. repeat (apply Forall_cons; split; [eexists; reflexivity |]).
    apply Forall_nil. exact I.
  - exists [RegisterCapability "workspace/didChangeConfiguration"].
    split; [reflexivity |].
    apply Hreg. repeat (apply Forall_cons; split; [eexists; reflexivity |]).
    apply Forall_nil. exact I.
  - exists [RegisterCapability "workspace/didChangeWorkspaceFolders"].
    split; [reflexivity |].
    apply Hreg. repeat (apply Forall_cons; split; [eexists; reflexivity |]).
    apply Forall_nil. exact I.
  - exists []. split; [symmetry; apply app_nil_r |].
    intros o Ho. apply elem_of_nil in Ho. destruct Ho.
Qed.

Section SessionProperties.

Variable client : list Outgoing -> string -> string -> Thenable HazeSettings.

Lemma getDocumentSettings_global (resource : string) (st : State) :
  hasConfigurationCapability st = false ->
  getDocumentSettings client resource st = (Fulfilled (globalSettings st), st).
Proof. intros H. unfold getDocumentSettings. rewrite H. reflexivity. Qed.

Lemma getDocumentSettings_hit (resource : string) (st : State)
    (result : Thenable HazeSettings) :
  hasConfigurationCapability st = true ->
  documentSettings st !! resource = Some result ->
  getDocumentSettings client resource st = (result, st).
Proof.
  intros H Hc. unfold getDocumentSettings. rewrite H, Hc. reflexivity.
Qed.

Lemma getDocumentSettings_miss (resource : string) (st : State) :
  hasConfigurationCapability st = true ->
  documentSettings st !! resource = None ->
  getDocumentSettings client resource st =
    (client (sent st) resource "haze-ls",
     set_documentSettings
       (<[resource := client (sent st) resource "haze-ls"]>
          (documentSettings st))
       (send (ConfigurationRequest resource "haze-ls") st)).
Proof.
  intros H Hc. unfold getDocumentSettings. rewrite H, Hc. reflexivity.
Qed.

(** [getDocumentSettings] never changes the capabilities, the global
    settings or the documents, and never drops an entry of the cache. *)
Lemma getDocumentSettings_frame (resource : string) (st : State) :
  let st' := snd (getDocumentSettings client resource st) in
  hasConfigurationCapability st' = hasConfigurationCapability st
  ∧ globalSettings st' = globalSettings st
  ∧ documents st' = documents st
  ∧ (∀ r result, documentSettings st !! r = Some result ->
                 documentSettings st' !! r = Some result).
Proof.
  unfold getDocumentSettings.
  destruct (hasConfigurationCapability st) eqn:Hcap; simpl; [| tauto].
  destruct (documentSettings st !! resource) eqn:Hc; simpl; [tauto |].
  repeat split; try assumption.
  intros r result Hr. rewrite lookup_insert_ne; [assumption | congruence].
Qed.

Lemma validateTextDocument_state (document : TextDocument.t) (st : State) :
  snd (validateTextDocument client document st) =
    snd (getDocumentSettings client (TextDocument.uri document) st).
Proof.
  unfold validateTextDocument.
  destruct (getDocumentSettings client (TextDocument.uri document) st); reflexivity.
Qed.

Lemma validateTextDocument_result (document : TextDocument.t) (st : State) :
  fst (validateTextDocument client document st) =
    await (fst (getDocumentSettings client (TextDocument.uri document) st))
          (fun _ => Fulfilled []).
Proof.
  unfold validateTextDocument.
  destruct (getDocumentSettings client (TextDocument.uri document) st); reflexivity.
Qed.

Lemma diagnostics_on_state (uri : string) (st : State) :
  snd (diagnostics_on client uri st) =
    match documents st !! uri with
    | Some document => snd (getDocumentSettings client (TextDocument.uri document) st)
    | None => st
    end.
Proof.
  unfold diagnostics_on.
  destruct (documents st !! uri) as [document|]; [| reflexivity].
  rewrite <- validateTextDocument_state.
  destruct (validateTextDocument client document st); reflexivity.
Qed.

Lemma diagnostics_on_result (uri : string) (document : TextDocument.t) (st : State) :
  documents st !! uri = Some document ->
  fst (diagnostics_on client uri st) =
    await (fst (getDocumentSettings client (TextDocument.uri document) st))
          (fun _ => Fulfilled {| DocumentDiagnosticReport.kind :=
                                   DocumentDiagnosticReportKind.Full;
                                 DocumentDiagnosticReport.items := [] |}).
Proof.
  intros Hdoc. unfold diagnostics_on. rewrite Hdoc.
  pose proof (validateTextDocument_result document st) as Hv.
  destruct (validateTextDocument client document st) as [pending st']. simpl in *.
  rewrite Hv.
  destruct (fst (getDocumentSettings client (TextDocument.uri document) st)); reflexivity.
Qed.

Lemma set_documents_id (st : State) : set_documents (documents st) st = st.
Proof. destruct st; reflexivity. Qed.

(** What a step that is not an invalidation leaves in place. *)
Lemma keeps_frame (resource : string) (st st' : State) :
  keeps client resource st st' ->
  hasConfigurationCapability st' = hasConfigurationCapability st
  ∧ (∀ result, documentSettings st !! resource = Some result ->
               documentSettings st' !! resource = Some result).
Proof.
  intros Hk.
  destruct Hk as [st | document st Hne | document st | uri st | st | d st | r st | st Hwf].
  - destruct (onInitialized_fields st) as (Hcap & _ & _ & _ & Hcache & _).
    rewrite Hcap, Hcache. split; auto.
  - simpl. split; [reflexivity |]. intros result Hr.
    rewrite lookup_delete_ne; [assumption | congruence].
  - unfold onDidChangeContent. rewrite validateTextDocument_state.
    destruct (getDocumentSettings_frame (TextDocument.uri document) st)
      as (Hcap & _ & _ & Hc). split; [exact Hcap | apply Hc].
  - rewrite diagnostics_on_state. destruct (documents st !! uri) as [document|].
    + destruct (getDocumentSettings_frame (TextDocument.uri document) st)
        as (Hcap & _ & _ & Hc). split; [exact Hcap | apply Hc].
    + tauto.
  - simpl. tauto.
  - simpl. tauto.
  - destruct (getDocumentSettings_frame r st) as (Hcap & _ & _ & Hc).
    split; [exact Hcap | apply Hc].
  - simpl. tauto.
Qed.

Lemma keeps_rtc_frame (resource : string) (st st' : State) :
  rtc (keeps client resource) st st' ->
  hasConfigurationCapability st' = hasConfigurationCapability st
  ∧ (∀ result, documentSettings st !! resource = Some result ->
               documentSettings st' !! resource = Some result).
Proof.
  induction 1 as [st | st st1 st2 Hk _ IH].
  - tauto.
  - destruct (keeps_frame _ _ _ Hk) as [Hcap Hc]. destruct IH as [Hcap' Hc'].
    split; [congruence | auto].
Qed.

(** C4: without the configuration capability, [getDocumentSettings] returns
    the global settings and leaves the state (the cache and the log of
    requests) as it was.  With it, the first call for a resource sends exactly
    one configuration request, for that resource and the section [haze-ls],
    and stores the client's answer in the cache; from then on, whatever steps
    other than invalidations follow, a call for the resource returns the
    stored answer and changes nothing. *)
Theorem getDocumentSettings_memoized (resource : string) (st : State) :
  (hasConfigurationCapability st = false ->
   getDocumentSettings client resource st = (Fulfilled (globalSettings st), st))
  ∧ (hasConfigurationCapability st = true ->
     documentSettings st !! resource = None ->
     let result := client (sent st) resource "haze-ls" in
     let st1 := snd (getDocumentSettings client resource st) in
     fst (getDocumentSettings client resource st) = result
     ∧ sent st1 = (sent st ++ [ConfigurationRequest resource "haze-ls"])%list
     ∧ documentSettings st1 = <[resource := result]> (documentSettings st)
     ∧ ∀ st2, rtc (keeps client resource) st1 st2 ->
              getDocumentSettings client resource st2 = (result, st2)).
Proof.
  split.
  - apply getDocumentSettings_global.
  - intros Hcap Hmiss. cbv zeta.
    rewrite (getDocumentSettings_miss resource st Hcap Hmiss). simpl.
    repeat split.
    intros st2 Hrtc. destruct (keeps_rtc_frame _ _ _ Hrtc) as [Hcap2 Hc2].
    apply getDocumentSettings_hit.
    + rewrite Hcap2. exact Hcap.
    + apply Hc2. simpl. apply lookup_insert_eq.
Qed.

(* ------------------------------------------------------------------------- *)
(** ** Invalidation *)

Lemma step_capability (st st' : State) :
  step client st st' ->
  hasConfigurationCapability st' = hasConfigurationCapability st.
Proof.
  intros Hs. destruct Hs as [st | change st | document st | document st | uri st | st | d st
                  | st Hwf].
  - eapply keeps_frame with (resource := ""). constructor.
  - unfold onDidChangeConfiguration.
    destruct (hasConfigurationCapability st) eqn:Hcap; simpl; [exact Hcap |].
    destruct (DidChangeConfigurationParams.settings change); simpl; exact Hcap.
  - reflexivity.
  - eapply keeps_frame with (resource := ""). constructor.
  - eapply keeps_frame with (resource := ""). constructor.
  - reflexivity.
  - reflexivity.
  - reflexivity.
Qed.

(** Without the configuration capability the cache stays empty and no
    configuration request is ever sent. *)
Lemma reachable_uncached (st : State) :
  reachable client st ->
  hasConfigurationCapability st = false ->
  documentSettings st = ∅ ∧ ∀ resource, ¬ queried resource st.
Proof.
  induction 1 as [params | st st' Hr IH Hs].
  - intros _. split; [reflexivity |].
    intros resource [section Hin]. simpl in Hin. apply elem_of_nil in Hin. exact Hin.
  - intros Hcap'. pose proof (step_capability _ _ Hs) as Hsame.
    assert (Hcap : hasConfigurationCapability st = false) by congruence.
    destruct (IH Hcap) as [Hempty Hnot]. clear IH Hsame.
    assert (Hsend : ∀ o, (∀ r s, o ≠ ConfigurationRequest r s) ->
              ∀ resource, ¬ queried resource (send o st)).
    { intros o Ho resource [section Hin]. simpl in Hin.
      apply elem_of_app in Hin as [Hin | Hin].
      - apply (Hnot resource). exists section. exact Hin.
      - apply list_elem_of_singleton in Hin. symmetry in Hin. exact (Ho _ _ Hin). }
    destruct Hs as [st | change st | document st | document st | uri st | st | d st
                  | st Hwf].
    + destruct (onInitialized_fields st)
        as (_ & _ & _ & _ & Hcache & _ & suffix & Hsent & Hreg).
      rewrite Hcache. split; [exact Hempty |].
      intros resource [section Hin]. rewrite Hsent in Hin.
      apply elem_of_app in Hin as [Hin | Hin].
      * apply (Hnot resource). exists section. exact Hin.
      * destruct (Hreg _ Hin) as [method Hm]. discriminate Hm.
    + unfold onDidChangeConfiguration. rewrite Hcap.
      destruct (DidChangeConfigurationParams.settings change); simpl; [| auto].
      split; [exact Hempty |].
      intros resource [section Hin]. simpl in Hin.
      apply elem_of_app in Hin as [Hin | Hin].
      * apply (Hnot resource). exists section. exact Hin.
      * apply list_elem_of_singleton in Hin. discriminate.
    + simpl. rewrite Hempty. split; [apply delete_empty | exact Hnot].
    + unfold onDidChangeContent. rewrite validateTextDocument_state.
      rewrite getDocumentSettings_global by exact Hcap. auto.
    + rewrite diagnostics_on_state. destruct (documents st !! uri); [| auto].
      rewrite getDocumentSettings_global by exact Hcap. auto.
    + split; [exact Hempty |]. apply Hsend. discriminate.
    + simpl. auto.
    + split; [exact Hempty |]. apply Hsend. discriminate.
Qed.

(** C5: in every state of a session, handling a configuration change leaves
    the settings cache empty, and for every resource that was in the cache or
    had been asked for before, the next [getDocumentSettings] sends one fresh
    configuration request for it and returns the client's new answer. *)
Theorem onDidChangeConfiguration_clears (change : DidChangeConfigurationParams.t)
    (st : State) :
  reachable client st ->
  let st' := snd (onDidChangeConfiguration change st) in
  documentSettings st' = ∅
  ∧ ∀ resource,
      queried resource st ∨ is_Some (documentSettings st !! resource) ->
      let next := getDocumentSettings client resource st' in
      fst next = client (sent st') resource "haze-ls"
      ∧ sent (snd next) = (sent st' ++ [ConfigurationRequest resource "haze-ls"])%list
      ∧ documentSettings (snd next) !! resource =
          Some (client (sent st') resource "haze-ls").
Proof.
  intros Hr. cbv zeta.
  destruct (hasConfigurationCapability st) eqn:Hcap.
  - unfold onDidChangeConfiguration. rewrite Hcap. simpl.
    split; [reflexivity |]. intros resource _.
    rewrite getDocumentSettings_miss; [| exact Hcap | apply lookup_empty].
    simpl. repeat split. apply lookup_insert_eq.
  - destruct (reachable_uncached st Hr Hcap) as [Hempty Hnot]. split.
    + unfold onDidChangeConfiguration. rewrite Hcap.
      destruct (DidChangeConfigurationParams.settings change); exact Hempty.
    + intros resource [Hq | [result Hc]].
      * destruct (Hnot resource Hq).
      * rewrite Hempty, lookup_empty in Hc. discriminate.
Qed.

(* ------------------------------------------------------------------------- *)
(** ** Closing a document *)

(** C6, amended: handling the close of a document removes the cache entry of
    its URI and leaves the entry of every other resource, and everything else
    in the state, as it was.  With the configuration capability the next
    [getDocumentSettings] for the URI sends one fresh configuration request;
    without it the call returns the global settings and sends nothing. *)
Theorem onDidClose_purges (document : TextDocument.t) (st : State) :
  let uri := TextDocument.uri document in
  let st' := onDidClose document st in
  let next := getDocumentSettings client uri st' in
  documentSettings st' !! uri = None
  ∧ (∀ resource, resource ≠ uri ->
       documentSettings st' !! resource = documentSettings st !! resource)
  ∧ set_documentSettings (documentSettings st) st' = st
  ∧ (hasConfigurationCapability st = true ->
     fst next = client (sent st) uri "haze-ls"
     ∧ sent (snd next) = (sent st ++ [ConfigurationRequest uri "haze-ls"])%list
     ∧ documentSettings (snd next) !! uri = Some (client (sent st) uri "haze-ls"))
  ∧ (hasConfigurationCapability st = false ->
     next = (Fulfilled (globalSettings st), st')).
Proof.
  cbv zeta. split; [| split; [| split; [| split]]].
  - apply lookup_delete_eq.
  - intros resource Hne. simpl. apply lookup_delete_ne. congruence.
  - destruct st; reflexivity.
  - intros Hcap.
    rewrite getDocumentSettings_miss; [| exact Hcap | apply lookup_delete_eq].
    simpl. repeat split. apply lookup_insert_eq.
  - intros Hcap. rewrite getDocumentSettings_global; [reflexivity | exact Hcap].
Qed.

(* ------------------------------------------------------------------------- *)
(** ** Pull diagnostics *)

(** C2: for a URI the document manager has no document for, the diagnostics
    handler returns a fulfilled full report with no items, and changes
    nothing. *)
Theorem diagnostics_on_unknown (uri : string) (st : State) :
  documents st !! uri = None ->
  diagnostics_on client uri st =
    (Fulfilled {| DocumentDiagnosticReport.kind := DocumentDiagnosticReportKind.Full;
                  DocumentDiagnosticReport.items := [] |},
     st).
Proof. intros Hdoc. unfold diagnostics_on. rewrite Hdoc. reflexivity. Qed.

(** With a client that answers every request with settings, every promise in
    the cache is fulfilled. *)
Lemma reachable_fulfilled (st : State) :
  answers client ->
  reachable client st ->
  ∀ resource result, documentSettings st !! resource = Some result ->
                     ∃ settings, result = Fulfilled settings.
Proof.
  intros Hans. 
  assert (Hget : ∀ r st,
    (∀ resource result, documentSettings st !! resource = Some result ->
                        ∃ settings, result = Fulfilled settings) ->
    ∀ resource result,
      documentSettings (snd (getDocumentSettings client r st)) !! resource = Some result ->
      ∃ settings, result = Fulfilled settings).
  { intros r s IH resource result. unfold getDocumentSettings.
    destruct (hasConfigurationCapability s); simpl; [| apply IH].
    destruct (documentSettings s !! r); simpl; [apply IH |].
    rewrite lookup_insert. case_decide.
    - intros [= <-]. apply Hans.
    - apply IH. }
  induction 1 as [params | st st' Hr IH Hs].
  - intros resource result Hc. simpl in Hc. rewrite lookup_empty in Hc. discriminate.
  - destruct Hs as [st | change st | document st | document st | uri st | st | d st
                  | st Hwf].
    + destruct (onInitialized_fields st) as (_ & _ & _ & _ & Hcache & _).
      rewrite Hcache. exact IH.
    + unfold onDidChangeConfiguration.
      destruct (hasConfigurationCapability st); simpl.
      * intros resource result Hc. rewrite lookup_empty in Hc. discriminate.
      * destruct (DidChangeConfigurationParams.settings change); exact IH.
    + intros resource result Hc. simpl in Hc.
      apply lookup_delete_Some in Hc as [_ Hc]. eapply IH, Hc.
    + unfold onDidChangeContent. rewrite validateTextDocument_state.
      apply Hget, IH.
    + rewrite diagnostics_on_state. destruct (documents st !! uri); [| exact IH].
      apply Hget, IH.
    + exact IH.
    + exact IH.
    + exact IH.
Qed.

(** C3, amended: for a document the document manager knows, the diagnostics
    handler returns a report exactly when the settings of the document are
    obtained, and then the validation gives no diagnostics and the report is
    full and has no items, whatever the text and the settings are; no report
    is ever of another kind or has items.  The settings are obtained, and the
    report returned, in every session without the configuration capability and
    in every session whose client answers its configuration requests with
    settings. *)
Theorem diagnostics_on_known (uri : string) (document : TextDocument.t) (st : State) :
  documents st !! uri = Some document ->
  (∀ report, fst (diagnostics_on client uri st) = Fulfilled report ->
     DocumentDiagnosticReport.kind report = DocumentDiagnosticReportKind.Full
     ∧ length (DocumentDiagnosticReport.items report) = 0)
  ∧ (∀ settings,
       fst (getDocumentSettings client (TextDocument.uri document) st) =
         Fulfilled settings ->
       fst (validateTextDocument client document st) = Fulfilled []
       ∧ fst (diagnostics_on client uri st) =
           Fulfilled {| DocumentDiagnosticReport.kind :=
                          DocumentDiagnosticReportKind.Full;
                        DocumentDiagnosticReport.items := [] |})
  ∧ ((∃ report, fst (diagnostics_on client uri st) = Fulfilled report) ->
     ∃ settings,
       fst (getDocumentSettings client (TextDocument.uri document) st) =
         Fulfilled settings)
  ∧ (hasConfigurationCapability st = false ->
     fst (diagnostics_on client uri st) =
       Fulfilled {| DocumentDiagnosticReport.kind := DocumentDiagnosticReportKind.Full;
                    DocumentDiagnosticReport.items := [] |})
  ∧ (answers client -> reachable client st ->
     fst (diagnostics_on client uri st) =
       Fulfilled {| DocumentDiagnosticReport.kind := DocumentDiagnosticReportKind.Full;
                    DocumentDiagnosticReport.items := [] |}).
Proof.
  intros Hdoc.
  rewrite (diagnostics_on_result uri document st Hdoc), validateTextDocument_result.
  split; [| split; [| split; [| split]]].
  - intros report.
    destruct (fst (getDocumentSettings client (TextDocument.uri document) st));
      simpl; [| discriminate | discriminate].
    intros [= <-]. split; reflexivity.
  - intros settings ->. split; reflexivity.
  - intros [report Hreport].
    destruct (fst (getDocumentSettings client (TextDocument.uri document) st))
      as [settings | reason |]; simpl in Hreport; [eauto | discriminate | discriminate].
  - intros Hcap. rewrite getDocumentSettings_global by exact Hcap. reflexivity.
  - intros Hans Hr.
    assert (Hful : ∃ settings,
              fst (getDocumentSettings client (TextDocument.uri document) st) =
                Fulfilled settings).
    { unfold getDocumentSettings.
      destruct (hasConfigurationCapability st); simpl; [| eauto].
      destruct (documentSettings st !! TextDocument.uri document) as [result|] eqn:Hc;
        simpl.
      - eapply reachable_fulfilled; eauto.
      - apply Hans. }
    destruct Hful as [settings ->]. reflexivity.
Qed.

(** C8, amended: a configuration request that fails is not replaced by the
    default settings.  When the client rejects the request,
    [getDocumentSettings] returns the rejected promise and keeps it in the
    cache, and the validation of the document and the diagnostics handler
    reject with the same reason, now and on the next pull; when the client
    never answers, none of them ever returns. *)
Theorem configuration_failure_propagates (uri : string)
    (document : TextDocument.t) (st : State) :
  documents st !! uri = Some document ->
  hasConfigurationCapability st = true ->
  documentSettings st !! TextDocument.uri document = None ->
  let st' := snd (diagnostics_on client uri st) in
  (∀ reason,
     client (sent st) (TextDocument.uri document) "haze-ls" = Rejected reason ->
     fst (getDocumentSettings client (TextDocument.uri document) st) = Rejected reason
     ∧ fst (validateTextDocument client document st) = Rejected reason
     ∧ fst (diagnostics_on client uri st) = Rejected reason
     ∧ documentSettings st' !! TextDocument.uri document = Some (Rejected reason)
     ∧ diagnostics_on client uri st' = (Rejected reason, st'))
  ∧ (client (sent st) (TextDocument.uri document) "haze-ls" = Pending ->
     fst (getDocumentSettings client (TextDocument.uri document) st) = Pending
     ∧ fst (validateTextDocument client document st) = Pending
     ∧ fst (diagnostics_on client uri st) = Pending).
Proof.
  intros Hdoc Hcap Hmiss. cbv zeta.
  rewrite (diagnostics_on_result uri document st Hdoc), validateTextDocument_result.
  rewrite diagnostics_on_state, Hdoc.
  rewrite (getDocumentSettings_miss _ st Hcap Hmiss). simpl. split.
  - intros reason Hrej. rewrite Hrej. simpl.
    rewrite lookup_insert_eq. repeat split.
    unfold diagnostics_on, validateTextDocument. simpl. rewrite Hdoc.
    rewrite (getDocumentSettings_hit _ _ (Rejected reason));
      [reflexivity | exact Hcap | apply lookup_insert_eq].
  - intros Hpen. rewrite Hpen. repeat split.
Qed.

(* ------------------------------------------------------------------------- *)
(** ** Stale changes *)

(** C9: for an open document, a change notification whose version is not
    greater than the stored version is ignored: the store, and with it the
    text and the version of the document, and the rest of the session state
    are as before, and no validation runs. *)
Theorem stale_change_ignored (params : DidChangeTextDocumentParams.t)
    (document : TextDocument.t) (st : State) :
  documents st !! DidChangeTextDocumentParams.uri params = Some document ->
  (DidChangeTextDocumentParams.version params <= TextDocument.version document)%Z ->
  TextDocuments.didChange params (documents st) = (documents st, None)
  ∧ didChangeTextDocument client params st = st
  ∧ documents (didChangeTextDocument client params st)
      !! DidChangeTextDocumentParams.uri params = Some document.
Proof.
  intros Hdoc Hle.
  assert (Hstore : TextDocuments.didChange params (documents st) = (documents st, None)).
  { unfold TextDocuments.didChange. rewrite Hdoc.
    destruct (Z.ltb_spec (TextDocument.version document)
                (DidChangeTextDocumentParams.version params)); [lia | reflexivity]. }
  assert (Hst : didChangeTextDocument client params st = st).
  { unfold didChangeTextDocument. rewrite Hstore. apply set_documents_id. }
  split; [exact Hstore | split; [exact Hst |]].
  rewrite Hst. exact Hdoc.
Qed.

End SessionProperties.

(* ------------------------------------------------------------------------- *)
(** ** Notifications are steps of the session *)

Lemma didOpenTextDocument_reachable client (document : TextDocument.t) (st : State) :
  reachable client st -> reachable client (didOpenTextDocument client document st).
Proof.
  intros Hr. unfold didOpenTextDocument.
  eapply reachable_step; [| apply step_didChangeContent].
  eapply reachable_step; [exact Hr | apply step_documents].
Qed.

Lemma didChangeTextDocument_reachable client (params : DidChangeTextDocumentParams.t)
    (st : State) :
  reachable client st -> reachable client (didChangeTextDocument client params st).
Proof.
  intros Hr. unfold didChangeTextDocument.
  destruct (TextDocuments.didChange params (documents st)) as [store [document|]].
  - eapply reachable_step; [| apply step_didChangeContent].
    eapply reachable_step; [exact Hr | apply step_documents].
  - eapply reachable_step; [exact Hr | apply step_documents].
Qed.

Lemma didCloseTextDocument_reachable client (uri : string) (st : State) :
  reachable client st -> reachable client (didCloseTextDocument uri st).
Proof.
  intros Hr. unfold didCloseTextDocument.
  destruct (TextDocuments.didClose uri (documents st)) as [store [document|]].
  - eapply reachable_step; [| apply step_didClose].
    eapply reachable_step; [exact Hr | apply step_documents].
  - eapply reachable_step; [exact Hr | apply step_documents].
Qed.

Lemma openedSession_reachable client : reachable client (openedSession client).
Proof. apply didOpenTextDocument_reachable, reachable_initialize. Qed.

Lemma answeringClient_answers (s : HazeSettings) : answers (answeringClient s).
Proof. intros log scopeUri section. exists s. reflexivity. Qed.

(* ------------------------------------------------------------------------- *)
(** ** The properties on sample sessions *)

Lemma resolve_listed_entry_while :
  onCompletion !! 7 = Some (keyword "while" TokenKind.While)
  ∧ (∃ detail documentation,
        onCompletionResolve (keyword "while" TokenKind.While) =
          {| CompletionItem.label := "while";
             CompletionItem.kind := Some CompletionItemKind.Keyword;
             CompletionItem.data := AnyNumber 7;
             CompletionItem.detail := Some detail;
             CompletionItem.documentation := Some documentation |}).
Proof.
  split; [reflexivity |].
  exact (proj1 (resolve_listed_entry 7 (keyword "while" TokenKind.While) eq_refl)).
Defined.

Lemma diagnostics_on_unknown_closed :
  documents (didCloseTextDocument "a.hz" (openedSession (answeringClient defaultSettings)))
    !! "a.hz" = None
  ∧ diagnostics_on (answeringClient defaultSettings) "a.hz"
      (didCloseTextDocument "a.hz" (openedSession (answeringClient defaultSettings))) =
      (Fulfilled {| DocumentDiagnosticReport.kind := DocumentDiagnosticReportKind.Full;
                    DocumentDiagnosticReport.items := [] |},
       didCloseTextDocument "a.hz" (openedSession (answeringClient defaultSettings))).
Proof.
  split; [reflexivity |].
  apply (diagnostics_on_unknown (answeringClient defaultSettings) "a.hz"
           (didCloseTextDocument "a.hz" (openedSession (answeringClient defaultSettings)))).
  reflexivity.
Defined.

Lemma diagnostics_on_known_a_hz :
  documents (openedSession (answeringClient defaultSettings)) !! "a.hz" = Some a_hz
  ∧ answers (answeringClient defaultSettings)
  ∧ reachable (answeringClient defaultSettings)
      (openedSession (answeringClient defaultSettings))
  ∧ fst (diagnostics_on (answeringClient defaultSettings) "a.hz"
           (openedSession (answeringClient defaultSettings))) =
      Fulfilled {| DocumentDiagnosticReport.kind := DocumentDiagnosticReportKind.Full;
                   DocumentDiagnosticReport.items := [] |}.
Proof.
  destruct (diagnostics_on_known (answeringClient defaultSettings) "a.hz" a_hz
              (openedSession (answeringClient defaultSettings)) eq_refl)
    as (_ & _ & _ & _ & Hpull).
  split; [reflexivity | split; [apply answeringClient_answers | split]].
  - apply openedSession_reachable.
  - apply Hpull; [apply answeringClient_answers | apply openedSession_reachable].
Defined.

(** C3, as stated, fails for a known document whose settings lookup failed:
    in the session that opened [a_hz] with a client that rejects the
    configuration request, the document is known and the pull returns the
    rejection, not a report. *)
Lemma known_document_pull_rejected :
  reachable failingClient (openedSession failingClient)
  ∧ documents (openedSession failingClient) !! "a.hz" = Some a_hz
  ∧ fst (diagnostics_on failingClient "a.hz" (openedSession failingClient)) =
      Rejected "Unhandled method workspace/configuration"
  ∧ ¬ ∃ report,
        fst (diagnostics_on failingClient "a.hz" (openedSession failingClient)) =
          Fulfilled report.
Proof.
  split; [apply openedSession_reachable | split; [reflexivity | split; [reflexivity |]]].
  intros [report Hreport]. discriminate Hreport.
Qed.

Lemma getDocumentSettings_memoized_negotiated :
  hasConfigurationCapability negotiated = true
  ∧ documentSettings negotiated !! "a.hz" = None
  ∧ sent (snd (getDocumentSettings (answeringClient defaultSettings) "a.hz" negotiated)) =
      [ConfigurationRequest "a.hz" "haze-ls"]
  ∧ getDocumentSettings (answeringClient defaultSettings) "a.hz"
      (snd (getDocumentSettings (answeringClient defaultSettings) "a.hz" negotiated)) =
      (Fulfilled defaultSettings,
       snd (getDocumentSettings (answeringClient defaultSettings) "a.hz" negotiated)).
Proof.
  split; [reflexivity | split; [reflexivity |]].
  destruct (proj2 (getDocumentSettings_memoized (answeringClient defaultSettings)
                     "a.hz" negotiated) eq_refl eq_refl) as (_ & Hsent & _ & Hnext).
  split; [exact Hsent | apply Hnext, rtc_refl].
Defined.

Lemma onDidChangeConfiguration_clears_opened :
  reachable (answeringClient defaultSettings) (openedSession (answeringClient defaultSettings))
  ∧ queried "a.hz" (openedSession (answeringClient defaultSettings))
  ∧ documentSettings (refreshedSession (answeringClient defaultSettings)) = ∅
  ∧ sent (snd (getDocumentSettings (answeringClient defaultSettings) "a.hz"
                 (refreshedSession (answeringClient defaultSettings)))) =
      [ConfigurationRequest "a.hz" "haze-ls"; DiagnosticRefresh;
       ConfigurationRequest "a.hz" "haze-ls"].
Proof.
  assert (Hq : queried "a.hz" (openedSession (answeringClient defaultSettings))).
  { exists "haze-ls". apply list_elem_of_here. }
  destruct (onDidChangeConfiguration_clears (answeringClient defaultSettings)
              {| DidChangeConfigurationParams.settings := None |}
              (openedSession (answeringClient defaultSettings))
              (openedSession_reachable _)) as [Hempty Hnext].
  destruct (Hnext "a.hz" (or_introl Hq)) as (_ & Hsent & _).
  split; [apply openedSession_reachable | split; [exact Hq | split]].
  - exact Hempty.
  - exact Hsent.
Defined.

Lemma onDidClose_purges_two :
  hasConfigurationCapability (twoDocuments (answeringClient defaultSettings)) = true
  ∧ documentSettings (twoDocuments (answeringClient defaultSettings)) !! "a.hz" =
      Some (Fulfilled defaultSettings)
  ∧ documentSettings (onDidClose a_hz (twoDocuments (answeringClient defaultSettings)))
      !! "a.hz" = None
  ∧ documentSettings (onDidClose a_hz (twoDocuments (answeringClient defaultSettings)))
      !! "b.hz" = Some (Fulfilled defaultSettings)
  ∧ sent (snd (getDocumentSettings (answeringClient defaultSettings) "a.hz"
                 (onDidClose a_hz (twoDocuments (answeringClient defaultSettings))))) =
      [ConfigurationRequest "a.hz" "haze-ls"; ConfigurationRequest "b.hz" "haze-ls";
       ConfigurationRequest "a.hz" "haze-ls"].
Proof.
  destruct (onDidClose_purges (answeringClient defaultSettings) a_hz
              (twoDocuments (answeringClient defaultSettings)))
    as (Hgone & Hother & _ & Hnext & _).
  destruct (Hnext eq_refl) as (_ & Hsent & _).
  split; [reflexivity | split; [reflexivity | split; [exact Hgone | split]]].
  - rewrite (Hother "b.hz"); [reflexivity | discriminate].
  - exact Hsent.
Defined.

(** C6, as stated, fails in a session without the configuration capability:
    after the close of [a_hz], [getDocumentSettings] for [a.hz] returns the
    global settings and sends no configuration request. *)
Lemma close_without_configuration_capability :
  getDocumentSettings (answeringClient defaultSettings) "a.hz"
    (onDidClose a_hz (plainSession (answeringClient defaultSettings))) =
    (Fulfilled defaultSettings,
     onDidClose a_hz (plainSession (answeringClient defaultSettings)))
  ∧ sent (snd (getDocumentSettings (answeringClient defaultSettings) "a.hz"
                 (onDidClose a_hz (plainSession (answeringClient defaultSettings))))) = []
  ∧ ¬ queried "a.hz"
        (snd (getDocumentSettings (answeringClient defaultSettings) "a.hz"
                (onDidClose a_hz (plainSession (answeringClient defaultSettings))))).
Proof.
  split; [reflexivity | split; [reflexivity |]].
  intros [section Hin]. vm_compute in Hin. apply elem_of_nil in Hin. exact Hin.
Qed.

Lemma configuration_failure_propagates_refreshed :
  documents (refreshedSession failingClient) !! "a.hz" = Some a_hz
  ∧ hasConfigurationCapability (refreshedSession failingClient) = true
  ∧ documentSettings (refreshedSession failingClient) !! "a.hz" = None
  ∧ fst (diagnostics_on failingClient "a.hz" (refreshedSession failingClient)) =
      Rejected "Unhandled method workspace/configuration".
Proof.
  destruct (configuration_failure_propagates failingClient "a.hz" a_hz
              (refreshedSession failingClient) eq_refl eq_refl eq_refl)
    as [Hrejected _].
  destruct (Hrejected _ eq_refl) as (_ & _ & Hpull & _).
  split; [reflexivity | split; [reflexivity | split; [reflexivity | exact Hpull]]].
Defined.

(** C8, as stated, fails when the client rejects the configuration request:
    [getDocumentSettings] returns the rejection and not the default settings,
    and the diagnostics pull that follows returns no report but the same
    rejection. *)
Lemma failing_query_rejects_pull :
  failingClient (sent (refreshedSession failingClient)) "a.hz" "haze-ls" =
    Rejected "Unhandled method workspace/configuration"
  ∧ fst (getDocumentSettings failingClient "a.hz" (refreshedSession failingClient)) ≠
      Fulfilled defaultSettings
  ∧ documents (snd (getDocumentSettings failingClient "a.hz"
                      (refreshedSession failingClient))) !! "a.hz" = Some a_hz
  ∧ fst (diagnostics_on failingClient "a.hz"
           (snd (getDocumentSettings failingClient "a.hz"
                   (refreshedSession failingClient)))) =
      Rejected "Unhandled method workspace/configuration"
  ∧ ¬ ∃ report,
        fst (diagnostics_on failingClient "a.hz"
               (snd (getDocumentSettings failingClient "a.hz"
                       (refreshedSession failingClient)))) = Fulfilled report.
Proof.
  split; [reflexivity | split; [discriminate | split; [reflexivity | split]]].
  - reflexivity.
  - intros [report Hreport]. discriminate Hreport.
Qed.

Lemma stale_change_ignored_a_hz :
  documents (openedSession (answeringClient defaultSettings)) !! "a.hz" = Some a_hz
  ∧ (DidChangeTextDocumentParams.version staleChange <= TextDocument.version a_hz)%Z
  ∧ didChangeTextDocument (answeringClient defaultSettings) staleChange
      (openedSession (answeringClient defaultSettings)) =
      openedSession (answeringClient defaultSettings).
Proof.
  split; [reflexivity | split; [simpl; lia |]].
  apply (stale_change_ignored (answeringClient defaultSettings) staleChange a_hz
           (openedSession (answeringClient defaultSettings)));
    [reflexivity | simpl; lia].
Defined.

(** A client that never answers leaves the pull pending. *)
Lemma silent_client_blocks_pull :
  fst (diagnostics_on silentClient "a.hz" (refreshedSession silentClient)) = Pending.
Proof. reflexivity. Qed.

(* ------------------------------------------------------------------------- *)
(** * Further properties *)

(** ** The numbers of the token kinds *)

Lemma of_number_Some (n : Z) (k : TokenKind.t) :
  TokenKind.of_number n = Some k -> TokenKind.value k = n.
Proof.
  unfold TokenKind.of_number. intros Hfind.
  apply List.find_some in Hfind as [_ Heq]. apply Z.eqb_eq, Heq.
Qed.

Lemma value_range (k : TokenKind.t) : (0 <= TokenKind.value k <= 36)%Z.
Proof. destruct k; simpl; lia. Qed.

Lemma of_number_in_range (n : Z) :
  (0 <= n <= 36)%Z -> is_Some (TokenKind.of_number n).
Proof.
  intros [Hlo Hhi]. destruct n as [|p|p]; [eexists; reflexivity | | lia].
  do 6 (try destruct p as [p|p|]); try lia; eexists; reflexivity.
Qed.

Lemma of_number_out_of_range (n : Z) :
  (n < 0 ∨ 36 < n)%Z -> TokenKind.of_number n = None.
Proof.
  intros Hout. destruct (TokenKind.of_number n) as [k|] eqn:Hk; [| reflexivity].
  apply of_number_Some in Hk. pose proof (value_range k). lia.
Qed.

(** ** Resolving completion items *)

(** X1: the resolve handler has two outcomes and never fails.  When the data of
    the item is a number from 0 to 36, the item comes back with a detail and a
    documentation; for any other data (another number, a string, nothing) the
    item comes back as it came. *)
Theorem onCompletionResolve_outcomes (item : CompletionItem.t) :
  (∃ n, CompletionItem.data item = AnyNumber n ∧ (0 <= n <= 36)%Z
        ∧ is_Some (CompletionItem.detail (onCompletionResolve item))
        ∧ is_Some (CompletionItem.documentation (onCompletionResolve item)))
  ∨ ((∀ n, CompletionItem.data item = AnyNumber n -> (n < 0 ∨ 36 < n)%Z)
     ∧ onCompletionResolve item = item).
Proof.
  unfold onCompletionResolve.
  destruct (CompletionItem.data item) as [| |b|n|s] eqn:Hdata;
    try (right; split; [intros m Hm; discriminate Hm | reflexivity]).
  destruct (Z_le_dec 0 n) as [Hlo|Hlo]; [destruct (Z_le_dec n 36) as [Hhi|Hhi] |].
  - left. exists n. destruct (of_number_in_range n (conj Hlo Hhi)) as [k ->].
    simpl. eauto.
  - right. rewrite of_number_out_of_range by lia.
    split; [intros m [= <-]; lia | reflexivity].
  - right. rewrite of_number_out_of_range by lia.
    split; [intros m [= <-]; lia | reflexivity].
Qed.

(** X2: resolving never changes the label, the kind or the data of an item. *)
Theorem onCompletionResolve_preserves (item : CompletionItem.t) :
  CompletionItem.label (onCompletionResolve item) = CompletionItem.label item
  ∧ CompletionItem.kind (onCompletionResolve item) = CompletionItem.kind item
  ∧ CompletionItem.data (onCompletionResolve item) = CompletionItem.data item.
Proof.
  unfold onCompletionResolve.
  destruct (CompletionItem.data item) as [| |b|n|s] eqn:Hdata;
    [tauto | tauto | tauto | | tauto].
  destruct (TokenKind.of_number n); simpl; tauto.
Qed.

(** X3: resolving is idempotent: an item that was resolved comes back
    unchanged when it is resolved again. *)
Theorem onCompletionResolve_idempotent (item : CompletionItem.t) :
  onCompletionResolve (onCompletionResolve item) = onCompletionResolve item.
Proof.
  unfold onCompletionResolve at 2 3.
  destruct (CompletionItem.data item) as [| |b|n|s] eqn:Hdata;
    try (unfold onCompletionResolve; rewrite Hdata; reflexivity).
  destruct (TokenKind.of_number n) as [k|] eqn:Hk.
  - unfold onCompletionResolve. simpl. rewrite Hk. reflexivity.
  - unfold onCompletionResolve. rewrite Hdata, Hk. reflexivity.
Qed.

(** X4: for a key from 0 to 36 the detail and the documentation depend on the
    key alone: whatever label, kind, detail or documentation two items carry,
    resolving them gives the same detail and the same documentation, so a
    detail the item came with is overwritten. *)
Theorem onCompletionResolve_by_key (n : Z) (item1 item2 : CompletionItem.t) :
  (0 <= n <= 36)%Z ->
  CompletionItem.data item1 = AnyNumber n ->
  CompletionItem.data item2 = AnyNumber n ->
  CompletionItem.detail (onCompletionResolve item1) =
    CompletionItem.detail (onCompletionResolve item2)
  ∧ CompletionItem.documentation (onCompletionResolve item1) =
      CompletionItem.documentation (onCompletionResolve item2).
Proof.
  intros Hrange H1 H2. destruct (of_number_in_range n Hrange) as [k Hk].
  unfold onCompletionResolve. rewrite H1, H2, Hk. simpl. split; reflexivity.
Qed.

(** ** The completion list *)

(** X5: the completion list has 37 items with pairwise different labels; each
    is of kind Keyword and carries neither detail nor documentation before it
    is resolved. *)
Theorem onCompletion_labels :
  length onCompletion = 37
  ∧ NoDup (map CompletionItem.label onCompletion)
  ∧ Forall (fun entry =>
              CompletionItem.kind entry = Some CompletionItemKind.Keyword
              ∧ CompletionItem.detail entry = None
              ∧ CompletionItem.documentation entry = None)
           onCompletion.
Proof.
  split; [reflexivity | split].
  - apply (bool_decide_unpack _). vm_compute. exact I.
  - unfold onCompletion. repeat (apply Forall_cons; split; [repeat split |]).
    apply Forall_nil. exact I.
Qed.

(** X6: the completion list and the enum cover each other: every member of
    [TokenKind] is the data key of exactly one item of the list, and the data
    of every item is the number of a member. *)
Theorem onCompletion_covers_TokenKind :
  (∀ k : TokenKind.t,
     length (filter (fun entry =>
                       CompletionItem.data entry = AnyNumber (TokenKind.value k))
                    onCompletion) = 1)
  ∧ (∀ entry, entry ∈ onCompletion ->
       ∃ k, CompletionItem.data entry = AnyNumber (TokenKind.value k)).
Proof.
  split.
  - intros k. destruct k; vm_compute; reflexivity.
  - apply onCompletion_data.
Qed.

(* ------------------------------------------------------------------------- *)
(** ** The handshake *)

(** X7: the handshake tolerates absence at every level of the descriptor: each
    of the three capability flags is set exactly when the member it reads is
    there and [true] (and so are the objects on the way to it), and the
    handshake touches nothing but the flags: the settings, the cache, the
    documents and the requests sent stay as they were. *)
Theorem onInitialize_flags (params : InitializeParams.t) (st : State) :
  let capabilities := InitializeParams.capabilities params in
  let st' := snd (onInitialize params st) in
  (hasConfigurationCapability st' = true ↔
     ∃ workspace,
       ClientCapabilities.workspace capabilities = Some workspace
       ∧ WorkspaceClientCapabilities.configuration workspace = Some true)
  ∧ (hasWorkspaceFolderCapability st' = true ↔
       ∃ workspace,
         ClientCapabilities.workspace capabilities = Some workspace
         ∧ WorkspaceClientCapabilities.workspaceFolders workspace = Some true)
  ∧ (hasDiagnosticRelatedInformationCapability st' = true ↔
       ∃ textDocument publishDiagnostics,
         ClientCapabilities.textDocument capabilities = Some textDocument
         ∧ TextDocumentClientCapabilities.publishDiagnostics textDocument =
             Some publishDiagnostics
         ∧ PublishDiagnosticsClientCapabilities.relatedInformation publishDiagnostics =
             Some true)
  ∧ globalSettings st' = globalSettings st
  ∧ documentSettings st' = documentSettings st
  ∧ documents st' = documents st
  ∧ sent st' = sent st.
Proof.
  destruct params as [[workspace textDocument]]. cbv zeta. simpl.
  split; [| split; [| split; [| repeat split]]].
  - destruct workspace as [[[[|]|] folders]|]; simpl; split; intros H;
      first [ reflexivity | discriminate H
            | eexists; split; reflexivity
            | solve [ destruct H as [w [Hw Hc]]; simplify_eq; simpl in *;
                      try discriminate ] ].
  - destruct workspace as [[configuration [[|]|]]|]; simpl; split; intros H;
      first [ reflexivity | discriminate H
            | eexists; split; reflexivity
            | solve [ destruct H as [w [Hw Hc]]; simplify_eq; simpl in *;
                      try discriminate ] ].
  - destruct textDocument as [[[[[[|]|]]|]]|]; simpl; split; intros H;
      first [ reflexivity | discriminate H
            | eexists _, _; split; [reflexivity | split; reflexivity]
            | solve [ destruct H as [t [p (Ht & Hp & Hr)]];
                      simplify_eq/=; simplify_eq/=; try discriminate ] ].
Qed.

(** X8: after the handshake from the initial state, the initialized handler
    sends registrations and nothing else: one for configuration changes
    exactly when the client declared [workspace.configuration], followed by one
    for workspace folder changes exactly when it declared
    [workspace.workspaceFolders]; the flags, the global settings, the cache and
    the documents are left as the handshake set them. *)
Theorem onInitialized_registers (params : InitializeParams.t) :
  let capabilities := InitializeParams.capabilities params in
  let st := snd (onInitialize params initialState) in
  (RegisterCapability "workspace/didChangeConfiguration" ∈ sent (onInitialized st) ↔
     ∃ workspace,
       ClientCapabilities.workspace capabilities = Some workspace
       ∧ WorkspaceClientCapabilities.configuration workspace = Some true)
  ∧ (RegisterCapability "workspace/didChangeWorkspaceFolders" ∈ sent (onInitialized st) ↔
       ∃ workspace,
         ClientCapabilities.workspace capabilities = Some workspace
         ∧ WorkspaceClientCapabilities.workspaceFolders workspace = Some true)
  ∧ sent (onInitialized st) =
      ((if hasConfigurationCapability st
        then [RegisterCapability "workspace/didChangeConfiguration"] else [])
       ++ (if hasWorkspaceFolderCapability st
           then [RegisterCapability "workspace/didChangeWorkspaceFolders"] else []))%list
  ∧ hasConfigurationCapability (onInitialized st) = hasConfigurationCapability st
  ∧ hasWorkspaceFolderCapability (onInitialized st) = hasWorkspaceFolderCapability st
  ∧ hasDiagnosticRelatedInformationCapability (onInitialized st) =
      hasDiagnosticRelatedInformationCapability st
  ∧ globalSettings (onInitialized st) = defaultSettings
  ∧ documentSettings (onInitialized st) = ∅
  ∧ documents (onInitialized st) = ∅.
Proof.
  destruct params as [[workspace textDocument]]. cbv zeta. unfold onInitialized. simpl.
  destruct workspace as [[[[|]|] [[|]|]]|]; simpl;
    (split; [split; intros H | split; [split; intros H | repeat split]]);
    first [ apply list_elem_of_here
          | apply list_elem_of_further, list_elem_of_here
          | eexists; split; reflexivity
          | solve [ repeat (apply elem_of_cons in H as [H | H]; [discriminate H |]);
                    apply elem_of_nil in H; destruct H ]
          | solve [ destruct H as [w [Hw Hc]]; simplify_eq; simpl in *;
                    try discriminate ] ].
Qed.

(* ------------------------------------------------------------------------- *)
(** ** Configuration changes *)

(** X9: the configuration change handler throws exactly when the session
    lacks the configuration capability and [change.settings] is [null] or
    [undefined]; it then leaves the whole state as it was and asks for no
    refresh.  In every other case it returns and sends exactly one refresh
    request, and nothing else, to the client. *)
Theorem onDidChangeConfiguration_throws (change : DidChangeConfigurationParams.t)
    (st : State) :
  let failing :=
    hasConfigurationCapability st = false
    ∧ DidChangeConfigurationParams.settings change = None in
  (failing ->
   onDidChangeConfiguration change st = (Throw "TypeError", st))
  ∧ (¬ failing ->
     fst (onDidChangeConfiguration change st) = Normal tt
     ∧ sent (snd (onDidChangeConfiguration change st)) =
         (sent st ++ [DiagnosticRefresh])%list).
Proof.
  cbv zeta. unfold onDidChangeConfiguration.
  destruct (hasConfigurationCapability st) eqn:Hcap.
  - split; [intros [Hf _]; discriminate Hf | intros _; split; reflexivity].
  - destruct (DidChangeConfigurationParams.settings change) as [payload|] eqn:Hs.
    + split; [intros [_ Hf]; discriminate Hf | intros _; split; reflexivity].
    + split; [intros _; reflexivity |].
      intros Hnot. exfalso. apply Hnot. split; reflexivity.
Qed.

(** X10: with the configuration capability, the payload of a configuration
    change is not read: the handler does the same whatever the notification
    carries, never throws, and leaves the global settings as they were. *)
Theorem onDidChangeConfiguration_ignores_payload
    (change1 change2 : DidChangeConfigurationParams.t) (st : State) :
  hasConfigurationCapability st = true ->
  onDidChangeConfiguration change1 st = onDidChangeConfiguration change2 st
  ∧ fst (onDidChangeConfiguration change1 st) = Normal tt
  ∧ globalSettings (snd (onDidChangeConfiguration change1 st)) = globalSettings st.
Proof.
  intros Hcap. unfold onDidChangeConfiguration. rewrite Hcap. simpl. repeat split.
Qed.

Section SessionInvariants.

Variable client : list Outgoing -> string -> string -> Thenable HazeSettings.

(** What one call of [getDocumentSettings] does to the state. *)
Lemma getDocumentSettings_effect (resource : string) (st : State) :
  snd (getDocumentSettings client resource st) = st
  ∨ (hasConfigurationCapability st = true
     ∧ documentSettings st !! resource = None
     ∧ snd (getDocumentSettings client resource st) =
         set_documentSettings
           (<[resource := client (sent st) resource "haze-ls"]> (documentSettings st))
           (send (ConfigurationRequest resource "haze-ls") st)).
Proof.
  unfold getDocumentSettings.
  destruct (hasConfigurationCapability st); simpl; [| left; reflexivity].
  destruct (documentSettings st !! resource); simpl; [left; reflexivity |].
  right. repeat split.
Qed.

Lemma getDocumentSettings_twice (resource : string) (st : State) :
  getDocumentSettings client resource (snd (getDocumentSettings client resource st)) =
    (fst (getDocumentSettings client resource st),
     snd (getDocumentSettings client resource st)).
Proof.
  destruct (hasConfigurationCapability st) eqn:Hcap.
  - destruct (documentSettings st !! resource) as [result|] eqn:Hc.
    + rewrite (getDocumentSettings_hit client resource st result Hcap Hc). simpl.
      apply getDocumentSettings_hit; assumption.
    + rewrite (getDocumentSettings_miss client resource st Hcap Hc). simpl.
      apply getDocumentSettings_hit; [exact Hcap | apply lookup_insert_eq].
  - rewrite (getDocumentSettings_global client resource st Hcap). simpl.
    apply getDocumentSettings_global, Hcap.
Qed.

Lemma getDocumentSettings_flags (resource : string) (st : State) :
  hasWorkspaceFolderCapability (snd (getDocumentSettings client resource st)) =
    hasWorkspaceFolderCapability st
  ∧ hasDiagnosticRelatedInformationCapability
      (snd (getDocumentSettings client resource st)) =
      hasDiagnosticRelatedInformationCapability st.
Proof.
  destruct (getDocumentSettings_effect resource st) as [-> | (_ & _ & ->)];
    simpl; split; reflexivity.
Qed.

Lemma diagnostics_on_none (uri : string) (st : State) :
  documents st !! uri = None ->
  diagnostics_on client uri st =
    (Fulfilled {| DocumentDiagnosticReport.kind := DocumentDiagnosticReportKind.Full;
                  DocumentDiagnosticReport.items := [] |},
     st).
Proof. intros Hdoc. unfold diagnostics_on. rewrite Hdoc. reflexivity. Qed.

(** ** Pulling diagnostics *)

(** X12: a pull leaves the document manager, the capabilities and the global
    settings alone and drops no entry of the cache; it sends nothing, or, for a
    known document whose settings are not in the cache, the one configuration
    request for the URI of that document. *)
Theorem diagnostics_on_frame (uri : string) (st : State) :
  let st' := snd (diagnostics_on client uri st) in
  documents st' = documents st
  ∧ hasConfigurationCapability st' = hasConfigurationCapability st
  ∧ globalSettings st' = globalSettings st
  ∧ (∀ resource result, documentSettings st !! resource = Some result ->
                        documentSettings st' !! resource = Some result)
  ∧ (sent st' = sent st
     ∨ ∃ document,
         documents st !! uri = Some document
         ∧ hasConfigurationCapability st = true
         ∧ documentSettings st !! TextDocument.uri document = None
         ∧ sent st' =
             (sent st ++ [ConfigurationRequest (TextDocument.uri document) "haze-ls"])%list).
Proof.
  cbv zeta. rewrite diagnostics_on_state.
  destruct (documents st !! uri) as [document|] eqn:Hdoc.
  - destruct (getDocumentSettings_frame client (TextDocument.uri document) st)
      as (Hcap & Hglobal & Hdocs & Hcache).
    repeat split; try assumption.
    destruct (getDocumentSettings_effect (TextDocument.uri document) st)
      as [-> | (Hc & Hmiss & ->)]; [left; reflexivity |].
    right. exists document. repeat split; assumption.
  - repeat split; auto.
Qed.

(** X13: pulling twice is pulling once: the second pull for the same URI
    returns what the first returned, sends nothing and changes nothing. *)
Theorem diagnostics_on_twice (uri : string) (st : State) :
  diagnostics_on client uri (snd (diagnostics_on client uri st)) =
    (fst (diagnostics_on client uri st), snd (diagnostics_on client uri st)).
Proof.
  destruct (documents st !! uri) as [document|] eqn:Hdoc.
  - assert (Hdoc' : documents (snd (diagnostics_on client uri st)) !! uri = Some document).
    { rewrite diagnostics_on_state, Hdoc.
      destruct (getDocumentSettings_frame client (TextDocument.uri document) st)
        as (_ & _ & -> & _). exact Hdoc. }
    apply injective_projections.
    + rewrite (diagnostics_on_result client uri document _ Hdoc').
      rewrite (diagnostics_on_result client uri document _ Hdoc). simpl.
      rewrite diagnostics_on_state, Hdoc, getDocumentSettings_twice. reflexivity.
    + rewrite (diagnostics_on_state client uri (snd (diagnostics_on client uri st))).
      rewrite Hdoc'. simpl.
      rewrite diagnostics_on_state, Hdoc, getDocumentSettings_twice. reflexivity.
  - rewrite (diagnostics_on_none uri st Hdoc). simpl.
    apply diagnostics_on_none, Hdoc.
Qed.

(** X14: a pull that follows the validation pushed by a content change finds
    the settings in place: for a URI under which the document manager holds
    the document that changed, the pull sends nothing and changes nothing. *)
Theorem diagnostics_on_after_content_change (uri : string)
    (document : TextDocument.t) (st : State) :
  documents st !! uri = Some document ->
  let st' := onDidChangeContent client document st in
  documents st' !! uri = Some document
  ∧ snd (diagnostics_on client uri st') = st'
  ∧ fst (diagnostics_on client uri st') = fst (diagnostics_on client uri st).
Proof.
  intros Hdoc. cbv zeta. unfold onDidChangeContent.
  rewrite validateTextDocument_state.
  assert (Hdoc' : documents (snd (getDocumentSettings client (TextDocument.uri document) st))
                    !! uri = Some document).
  { destruct (getDocumentSettings_frame client (TextDocument.uri document) st)
      as (_ & _ & -> & _). exact Hdoc. }
  split; [exact Hdoc' | split].
  - rewrite diagnostics_on_state, Hdoc', getDocumentSettings_twice. reflexivity.
  - rewrite (diagnostics_on_result client uri document _ Hdoc').
    rewrite (diagnostics_on_result client uri document _ Hdoc).
    rewrite getDocumentSettings_twice. reflexivity.
Qed.

(** X15: the validation reads nothing of a document but its URI: two
    documents with the same URI, whatever their texts, versions and language
    identifiers, are validated with the same result and the same effect. *)
Theorem validateTextDocument_by_uri (document1 document2 : TextDocument.t) (st : State) :
  TextDocument.uri document1 = TextDocument.uri document2 ->
  validateTextDocument client document1 st = validateTextDocument client document2 st.
Proof.
  intros Huri. unfold validateTextDocument. rewrite Huri.
  destruct (getDocumentSettings client (TextDocument.uri document2) st). reflexivity.
Qed.

(** X16: without the configuration capability a pull never fails and never
    talks to the client: for every URI, known or not, it returns a fulfilled
    full report without items and leaves the state as it was. *)
Theorem diagnostics_on_without_capability (uri : string) (st : State) :
  hasConfigurationCapability st = false ->
  diagnostics_on client uri st =
    (Fulfilled {| DocumentDiagnosticReport.kind := DocumentDiagnosticReportKind.Full;
                  DocumentDiagnosticReport.items := [] |},
     st).
Proof.
  intros Hcap. destruct (documents st !! uri) as [document|] eqn:Hdoc.
  - apply injective_projections.
    + rewrite (diagnostics_on_result client uri document st Hdoc).
      rewrite getDocumentSettings_global by exact Hcap. reflexivity.
    + rewrite diagnostics_on_state, Hdoc.
      rewrite getDocumentSettings_global by exact Hcap. reflexivity.
  - apply diagnostics_on_none, Hdoc.
Qed.

(** ** Global settings *)

(** X17: without the configuration capability, the settings carried by a
    configuration change become the settings of every resource: after the
    notification [getDocumentSettings] returns the member
    [languageServerExample] of the payload, or the default settings when the
    member is missing, for whatever resource, and sends nothing. *)
Theorem onDidChangeConfiguration_global (payload : option HazeSettings)
    (resource : string) (st : State) :
  hasConfigurationCapability st = false ->
  let change := {| DidChangeConfigurationParams.settings := Some payload |} in
  let st' := snd (onDidChangeConfiguration change st) in
  getDocumentSettings client resource st' =
    (Fulfilled (match payload with
                | Some settings => settings
                | None => defaultSettings
                end),
     st').
Proof.
  intros Hcap. cbv zeta. unfold onDidChangeConfiguration. rewrite Hcap. simpl.
  rewrite getDocumentSettings_global by exact Hcap. reflexivity.
Qed.

(** ** Closing documents *)

(** X18: closing composes like deletion from a map: closing a document twice
    is closing it once, two closes commute, and closing a document that has
    no entry in the cache changes nothing. *)
Theorem onDidClose_compose (document1 document2 : TextDocument.t) (st : State) :
  onDidClose document1 (onDidClose document1 st) = onDidClose document1 st
  ∧ onDidClose document1 (onDidClose document2 st) =
      onDidClose document2 (onDidClose document1 st)
  ∧ (documentSettings st !! TextDocument.uri document1 = None ->
     onDidClose document1 st = st).
Proof.
  unfold onDidClose, set_documentSettings. simpl. split; [| split].
  - rewrite delete_delete_eq. reflexivity.
  - rewrite delete_delete. reflexivity.
  - intros Hnone. rewrite delete_id by exact Hnone. destruct st; reflexivity.
Qed.

(* ------------------------------------------------------------------------- *)
(** ** Invariants of a session *)

Lemma step_flags (st st' : State) :
  step client st st' ->
  hasWorkspaceFolderCapability st' = hasWorkspaceFolderCapability st
  ∧ hasDiagnosticRelatedInformationCapability st' =
      hasDiagnosticRelatedInformationCapability st.
Proof.
  intros Hs. destruct Hs as [st | change st | document st | document st | uri st | st | d st
                  | st Hwf].
  - destruct (onInitialized_fields st) as (_ & Hw & Hd & _). split; assumption.
  - unfold onDidChangeConfiguration. destruct (hasConfigurationCapability st);
      [| destruct (DidChangeConfigurationParams.settings change)]; split; reflexivity.
  - split; reflexivity.
  - unfold onDidChangeContent. rewrite validateTextDocument_state.
    apply getDocumentSettings_flags.
  - rewrite diagnostics_on_state. destruct (documents st !! uri).
    + apply getDocumentSettings_flags.
    + split; reflexivity.
  - split; reflexivity.
  - split; reflexivity.
  - split; reflexivity.
Qed.

(** X19: the capabilities are fixed by the handshake: whatever handlers run
    afterwards, in whatever order and number, the three capability flags keep
    their values. *)
Theorem capabilities_immutable (st st' : State) :
  rtc (step client) st st' ->
  hasConfigurationCapability st' = hasConfigurationCapability st
  ∧ hasWorkspaceFolderCapability st' = hasWorkspaceFolderCapability st
  ∧ hasDiagnosticRelatedInformationCapability st' =
      hasDiagnosticRelatedInformationCapability st.
Proof.
  induction 1 as [st | st st1 st2 Hs _ IH].
  - repeat split.
  - pose proof (step_capability client _ _ Hs) as Hc.
    destruct (step_flags _ _ Hs) as [Hw Hd]. destruct IH as (IHc & IHw & IHd).
    repeat split; congruence.
Qed.

(** What one step does to the log and to the cache. *)
Lemma step_effect (st st' : State) :
  step client st st' ->
  (∃ suffix, sent st' = (sent st ++ suffix)%list
             ∧ ∀ r s, ConfigurationRequest r s ∈ suffix -> s = "haze-ls")
  ∧ (∀ r result, documentSettings st' !! r = Some result ->
       documentSettings st !! r = Some result
       ∨ (result = client (sent st) r "haze-ls"
          ∧ sent st' = (sent st ++ [ConfigurationRequest r "haze-ls"])%list)).
Proof.
  assert (Hnil : ∀ s : State, ∃ suffix, sent s = (sent s ++ suffix)%list
             ∧ ∀ r x, ConfigurationRequest r x ∈ suffix -> x = "haze-ls").
  { intros s. exists []. split; [symmetry; apply app_nil_r |].
    intros r x Hin. apply elem_of_nil in Hin. destruct Hin. }
  assert (Hone : ∀ (s : State) o, (∀ r x, o = ConfigurationRequest r x -> x = "haze-ls") ->
             ∃ suffix, sent (send o s) = (sent s ++ suffix)%list
             ∧ ∀ r x, ConfigurationRequest r x ∈ suffix -> x = "haze-ls").
  { intros s o Ho. exists [o]. split; [reflexivity |].
    intros r x Hin. apply list_elem_of_singleton in Hin. symmetry in Hin. eauto. }
  assert (Hget : ∀ resource s,
    (∃ suffix, sent (snd (getDocumentSettings client resource s)) = (sent s ++ suffix)%list
               ∧ ∀ r x, ConfigurationRequest r x ∈ suffix -> x = "haze-ls")
    ∧ (∀ r result,
         documentSettings (snd (getDocumentSettings client resource s)) !! r = Some result ->
         documentSettings s !! r = Some result
         ∨ (result = client (sent s) r "haze-ls"
            ∧ sent (snd (getDocumentSettings client resource s)) =
                (sent s ++ [ConfigurationRequest r "haze-ls"])%list))).
  { intros resource s.
    destruct (getDocumentSettings_effect resource s) as [-> | (_ & _ & ->)].
    - split; [apply Hnil | auto].
    - split.
      + apply (Hone s). intros r x [= _ <-]. reflexivity.
      + intros r result. simpl. rewrite lookup_insert. case_decide.
        * intros [= <-]. subst r. right. split; reflexivity.
        * auto. }
  intros Hs. destruct Hs as [st | change st | document st | document st | uri st | st | d st
                  | st Hwf].
  - destruct (onInitialized_fields st)
      as (_ & _ & _ & _ & Hcache & _ & suffix & Hsent & Hreg). split.
    + exists suffix. split; [exact Hsent |].
      intros r x Hin. destruct (Hreg _ Hin) as [method Hm]. discriminate Hm.
    + rewrite Hcache. auto.
  - unfold onDidChangeConfiguration. destruct (hasConfigurationCapability st).
    + split; [apply (Hone (set_documentSettings ∅ st)); discriminate |].
      simpl. intros r result Hr. rewrite lookup_empty in Hr. discriminate.
    + destruct (DidChangeConfigurationParams.settings change) as [payload|].
      * split; [apply (Hone (set_globalSettings _ st)); discriminate | simpl; auto].
      * split; [apply Hnil | auto].
  - split; [apply (Hnil st) |]. simpl. intros r result Hr.
    apply lookup_delete_Some in Hr as [_ Hr]. auto.
  - unfold onDidChangeContent. rewrite validateTextDocument_state. apply Hget.
  - rewrite diagnostics_on_state. destruct (documents st !! uri).
    + apply Hget.
    + split; [apply Hnil | auto].
  - split; [apply Hone; discriminate | simpl; auto].
  - split; [apply (Hnil st) | simpl; auto].
  - split; [apply Hone; discriminate | simpl; auto].
Qed.

(** X20: every configuration request a session sends asks for the section
    [haze-ls], and is sent only in a session with the configuration
    capability. *)
Theorem configuration_requests_section (st : State) (resource section : string) :
  reachable client st ->
  ConfigurationRequest resource section ∈ sent st ->
  section = "haze-ls" ∧ hasConfigurationCapability st = true.
Proof.
  intros Hr Hin. split.
  - revert resource section Hin. induction Hr as [params | st st' Hr IH Hs].
    + intros resource section Hin. simpl in Hin. apply elem_of_nil in Hin. destruct Hin.
    + intros resource section Hin.
      destruct (step_effect _ _ Hs) as [(suffix & Hsent & Hsuffix) _].
      rewrite Hsent in Hin. apply elem_of_app in Hin as [Hin | Hin]; eauto.
  - destruct (hasConfigurationCapability st) eqn:Hcap; [reflexivity |].
    destruct (reachable_uncached client st Hr Hcap) as [_ Hnot].
    destruct (Hnot resource). exists section. exact Hin.
Qed.

(** X21: the cache holds nothing but answers of the client: in every state of
    a session, the entry of a resource is the promise the client gave for a
    configuration request that the log shows, for that resource and the
    section [haze-ls]. *)
Theorem cache_holds_answers (st : State) (resource : string)
    (result : Thenable HazeSettings) :
  reachable client st ->
  documentSettings st !! resource = Some result ->
  ∃ before after,
    sent st = (before ++ ConfigurationRequest resource "haze-ls" :: after)%list
    ∧ result = client before resource "haze-ls".
Proof.
  intros Hr. revert resource result. induction Hr as [params | st st' Hr IH Hs].
  - intros resource result Hc. simpl in Hc. rewrite lookup_empty in Hc. discriminate.
  - intros resource result Hc.
    destruct (step_effect _ _ Hs) as [(suffix & Hsent & _) Hcache].
    destruct (Hcache resource result Hc) as [Hold | [-> Hnew]].
    + destruct (IH resource result Hold) as (before & after & Hlog & ->).
      exists before, (after ++ suffix)%list. split; [| reflexivity].
      rewrite Hsent, Hlog, <- app_assoc. reflexivity.
    + exists (sent st), []. split; [exact Hnew | reflexivity].
Qed.

(** X11: a configuration change is the way out of a failed settings lookup:
    with the configuration capability, the pull for a known document that
    follows the notification asks the client again, and its result is decided
    by that answer alone, whatever the cache held before. *)
Theorem diagnostics_on_after_configuration_change
    (change : DidChangeConfigurationParams.t) (uri : string)
    (document : TextDocument.t) (st : State) :
  hasConfigurationCapability st = true ->
  documents st !! uri = Some document ->
  let st' := snd (onDidChangeConfiguration change st) in
  let answer :=
    client (sent st ++ [DiagnosticRefresh])%list (TextDocument.uri document) "haze-ls" in
  fst (diagnostics_on client uri st') =
    await answer
      (fun _ => Fulfilled {| DocumentDiagnosticReport.kind :=
                               DocumentDiagnosticReportKind.Full;
                             DocumentDiagnosticReport.items := [] |})
  ∧ sent (snd (diagnostics_on client uri st')) =
      (sent st ++ [DiagnosticRefresh;
                   ConfigurationRequest (TextDocument.uri document) "haze-ls"])%list
  ∧ documentSettings (snd (diagnostics_on client uri st'))
      !! TextDocument.uri document = Some answer.
Proof.
  intros Hcap Hdoc. cbv zeta.
  unfold onDidChangeConfiguration. rewrite Hcap. simpl.
  set (st' := send DiagnosticRefresh (set_documentSettings ∅ st)).
  assert (Hdoc' : documents st' !! uri = Some document) by exact Hdoc.
  assert (Hget : getDocumentSettings client (TextDocument.uri document) st' =
    (client (sent st') (TextDocument.uri document) "haze-ls",
     set_documentSettings
       (<[TextDocument.uri document :=
            client (sent st') (TextDocument.uri document) "haze-ls"]> (documentSettings st'))
       (send (ConfigurationRequest (TextDocument.uri document) "haze-ls") st'))).
  { apply getDocumentSettings_miss; [exact Hcap | apply lookup_empty]. }
  rewrite (diagnostics_on_result client uri document st' Hdoc').
  rewrite diagnostics_on_state, Hdoc', Hget. simpl.
  split; [reflexivity | split].
  - rewrite <- app_assoc. reflexivity.
  - apply lookup_insert_eq.
Qed.

End SessionInvariants.

(* ------------------------------------------------------------------------- *)
(** ** The further properties on sample sessions *)

Lemma openedSession_steps client : rtc (step client) negotiated (openedSession client).
Proof.
  unfold openedSession, didOpenTextDocument.
  eapply rtc_l; [apply step_documents |].
  eapply rtc_l; [apply step_didChangeContent |].
  apply rtc_refl.
Qed.

Lemma twoDocuments_reachable client : reachable client (twoDocuments client).
Proof. apply didOpenTextDocument_reachable, openedSession_reachable. Qed.

Lemma refreshedSession_reachable client : reachable client (refreshedSession client).
Proof.
  eapply reachable_step; [apply openedSession_reachable |].
  apply step_didChangeConfiguration.
Qed.

Lemma onCompletionResolve_by_key_stale :
  (0 <= 7 <= 36)%Z
  ∧ CompletionItem.data (keyword "while" TokenKind.While) = AnyNumber 7
  ∧ CompletionItem.data staleItem = AnyNumber 7
  ∧ CompletionItem.detail (onCompletionResolve staleItem) =
      CompletionItem.detail (onCompletionResolve (keyword "while" TokenKind.While)).
Proof.
  split; [lia | split; [reflexivity | split; [reflexivity |]]].
  symmetry.
  apply (onCompletionResolve_by_key 7 (keyword "while" TokenKind.While) staleItem);
    [lia | reflexivity | reflexivity].
Defined.

Lemma onDidChangeConfiguration_ignores_payload_negotiated :
  hasConfigurationCapability negotiated = true
  ∧ onDidChangeConfiguration
      {| DidChangeConfigurationParams.settings := None |} negotiated =
    onDidChangeConfiguration
      {| DidChangeConfigurationParams.settings :=
           Some (Some {| maxNumberOfProblems := 5 |}) |} negotiated.
Proof.
  split; [reflexivity |].
  apply (onDidChangeConfiguration_ignores_payload
           {| DidChangeConfigurationParams.settings := None |}
           {| DidChangeConfigurationParams.settings :=
                Some (Some {| maxNumberOfProblems := 5 |}) |} negotiated).
  reflexivity.
Defined.

Lemma diagnostics_on_after_configuration_change_failing :
  hasConfigurationCapability (openedSession failingClient) = true
  ∧ documents (openedSession failingClient) !! "a.hz" = Some a_hz
  ∧ documentSettings (openedSession failingClient) !! "a.hz" =
      Some (Rejected "Unhandled method workspace/configuration")
  ∧ sent (snd (diagnostics_on (answeringClient defaultSettings) "a.hz"
                 (refreshedSession failingClient))) =
      [ConfigurationRequest "a.hz" "haze-ls"; DiagnosticRefresh;
       ConfigurationRequest "a.hz" "haze-ls"]
  ∧ fst (diagnostics_on (answeringClient defaultSettings) "a.hz"
           (refreshedSession failingClient)) =
      Fulfilled {| DocumentDiagnosticReport.kind := DocumentDiagnosticReportKind.Full;
                   DocumentDiagnosticReport.items := [] |}.
Proof.
  destruct (diagnostics_on_after_configuration_change (answeringClient defaultSettings)
              {| DidChangeConfigurationParams.settings := None |} "a.hz" a_hz
              (openedSession failingClient) eq_refl eq_refl) as (Hresult & Hsent & _).
  split; [reflexivity | split; [reflexivity | split; [reflexivity | split]]].
  - exact Hsent.
  - exact Hresult.
Defined.

Lemma diagnostics_on_after_content_change_refreshed :
  documents (refreshedSession (answeringClient defaultSettings)) !! "a.hz" = Some a_hz
  ∧ snd (diagnostics_on (answeringClient defaultSettings) "a.hz"
           (onDidChangeContent (answeringClient defaultSettings) a_hz
              (refreshedSession (answeringClient defaultSettings)))) =
      onDidChangeContent (answeringClient defaultSettings) a_hz
        (refreshedSession (answeringClient defaultSettings)).
Proof.
  split; [reflexivity |].
  apply (diagnostics_on_after_content_change (answeringClient defaultSettings) "a.hz" a_hz
           (refreshedSession (answeringClient defaultSettings))).
  reflexivity.
Defined.

Lemma validateTextDocument_by_uri_edited :
  TextDocument.uri a_hz = TextDocument.uri a_hz_edited
  ∧ validateTextDocument (answeringClient defaultSettings) a_hz negotiated =
      validateTextDocument (answeringClient defaultSettings) a_hz_edited negotiated.
Proof.
  split; [reflexivity |].
  apply (validateTextDocument_by_uri (answeringClient defaultSettings) a_hz a_hz_edited
           negotiated).
  reflexivity.
Defined.

Lemma diagnostics_on_without_capability_plain :
  hasConfigurationCapability (plainSession failingClient) = false
  ∧ diagnostics_on failingClient "a.hz" (plainSession failingClient) =
      (Fulfilled {| DocumentDiagnosticReport.kind := DocumentDiagnosticReportKind.Full;
                    DocumentDiagnosticReport.items := [] |},
       plainSession failingClient).
Proof.
  split; [reflexivity |].
  apply (diagnostics_on_without_capability failingClient "a.hz" (plainSession failingClient)).
  reflexivity.
Defined.

Lemma onDidChangeConfiguration_global_plain :
  hasConfigurationCapability (plainSession failingClient) = false
  ∧ fst (getDocumentSettings failingClient "b.hz"
           (snd (onDidChangeConfiguration
                   {| DidChangeConfigurationParams.settings :=
                        Some (Some {| maxNumberOfProblems := 5 |}) |}
                   (plainSession failingClient)))) =
      Fulfilled {| maxNumberOfProblems := 5 |}.
Proof.
  split; [reflexivity |].
  rewrite (onDidChangeConfiguration_global failingClient
             (Some {| maxNumberOfProblems := 5 |}) "b.hz" (plainSession failingClient)
             eq_refl).
  reflexivity.
Defined.

Lemma capabilities_immutable_opened :
  rtc (step (answeringClient defaultSettings)) negotiated
    (openedSession (answeringClient defaultSettings))
  ∧ hasDiagnosticRelatedInformationCapability
      (openedSession (answeringClient defaultSettings)) =
      hasDiagnosticRelatedInformationCapability negotiated.
Proof.
  split; [apply openedSession_steps |].
  apply (capabilities_immutable (answeringClient defaultSettings) negotiated
           (openedSession (answeringClient defaultSettings))).
  apply openedSession_steps.
Defined.

Lemma configuration_requests_section_opened :
  reachable (answeringClient defaultSettings) (openedSession (answeringClient defaultSettings))
  ∧ ConfigurationRequest "a.hz" "haze-ls"
      ∈ sent (openedSession (answeringClient defaultSettings))
  ∧ hasConfigurationCapability (openedSession (answeringClient defaultSettings)) = true.
Proof.
  assert (Hin : ConfigurationRequest "a.hz" "haze-ls"
                  ∈ sent (openedSession (answeringClient defaultSettings)))
    by apply list_elem_of_here.
  split; [apply openedSession_reachable | split; [exact Hin |]].
  apply (configuration_requests_section (answeringClient defaultSettings)
           (openedSession (answeringClient defaultSettings)) "a.hz" "haze-ls"
           (openedSession_reachable _) Hin).
Defined.

Lemma cache_holds_answers_two :
  reachable (answeringClient defaultSettings) (twoDocuments (answeringClient defaultSettings))
  ∧ documentSettings (twoDocuments (answeringClient defaultSettings)) !! "b.hz" =
      Some (Fulfilled defaultSettings)
  ∧ ∃ before after,
      sent (twoDocuments (answeringClient defaultSettings)) =
        (before ++ ConfigurationRequest "b.hz" "haze-ls" :: after)%list
      ∧ Fulfilled defaultSettings = answeringClient defaultSettings before "b.hz" "haze-ls".
Proof.
  split; [apply twoDocuments_reachable | split; [reflexivity |]].
  apply (cache_holds_answers (answeringClient defaultSettings)
           (twoDocuments (answeringClient defaultSettings)) "b.hz"
           (Fulfilled defaultSettings) (twoDocuments_reachable _)).
  reflexivity.
Defined.
